(** * Failure tracking and auto-disable engine of CLIProxyAPI

    A shallow embedding of [internal/failure] (track.go, integration.go,
    routing.go), of the vendor-name normalisation of
    [internal/runtime/executor/failure_tracking.go], of the management
    handlers of the tracker
    ([internal/api/handlers/management/failure_tracking.go]) and of
    [joinConditions] of [internal/storage/postgres/query.go], with the
    properties of the per-(vendor, model) state machine and of its callers
    proved over it.

    Conventions of the embedding:
    - the [sync.Map] of records is a [gmap string FailureRecord]; the
      records are reached only through the map, so the in-place mutation
      of a [*FailureRecord] followed by [Store] is an insert;
    - every call of [time.Now()] is an explicit argument [now];
    - the mutex, the wait group and the ticker are not modelled: the
      operations are the bodies of the critical sections, run one at a
      time. *)

From Stdlib Require Import ZArith Lia.
From stdpp Require Import gmap strings list fin_maps.
From Stdlib Require Import Ascii.

Local Open Scope Z_scope.

(** ** Go's [time] package, as far as the tracker uses it *)

Module GoTime.

(** A [time.Time] is the number of nanoseconds since Go's zero time
    (January 1, year 1, 00:00 UTC); wall clock and monotonic clock are
    one time line.  A [time.Duration] is an [int64] of nanoseconds. *)
Abbreviation Time := Z (only parsing).
Abbreviation Duration := Z (only parsing).

Definition minDuration : Z := - 2 ^ 63.
Definition maxDuration : Z := 2 ^ 63 - 1.

(** Two's complement wrap-around of [int64] and [int32] arithmetic. *)
Definition wrap64 (z : Z) : Z := (z + 2 ^ 63) mod 2 ^ 64 - 2 ^ 63.
Definition wrap32 (z : Z) : Z := (z + 2 ^ 31) mod 2 ^ 32 - 2 ^ 31.

Definition Nanosecond : Z := 1.
Definition Second : Z := 1000000000.

(** [time.Time{}] *)
Definition zeroTime : Z := 0.

Definition IsZero (t : Time) : bool := t =? 0.
Definition After (t u : Time) : bool := u <? t.
Definition Before (t u : Time) : bool := t <? u.
Definition Add (t : Time) (d : Duration) : Time := t + d.

(** [t.Sub(u)] saturates at the ends of the [int64] range. *)
Definition Sub (t u : Time) : Duration :=
  if t - u <? minDuration then minDuration
  else if maxDuration <? t - u then maxDuration
  else t - u.

(** [time.Until(t)], the clock reading it takes being [now]. *)
Definition Until (now t : Time) : Duration := Sub t now.

(** [time.Duration(n) * time.Second] and [-time.Duration(n) * time.Second]
    (unary minus binds tighter than the product). *)
Definition seconds (n : Z) : Duration := wrap64 (wrap64 n * Second).
Definition negSeconds (n : Z) : Duration := wrap64 (wrap64 (- wrap64 n) * Second).

(** The Unix epoch on this time line (Go's [unixToInternal] seconds).
    A reading of a real clock lies after it. *)
Definition unixEpoch : Z := 62135596800 * Second.
Definition validNow (now : Time) : Prop := unixEpoch <= now.

End GoTime.

(** ** [internal/config]: the auto-disable settings *)

Module config.

Record AutoDisableConfig := mkAutoDisableConfig {
  FailureThreshold : Z;
  TimeWindowSeconds : Z;
  DisableDurationSeconds : Z
}.

(** The literal [{5, 60, 300}] written out in track.go and integration.go. *)
Definition hardDefault : AutoDisableConfig :=
  {| FailureThreshold := 5; TimeWindowSeconds := 60; DisableDurationSeconds := 300 |}.

(** Modelled from the spec: the method
    [AutoDisableConfig.GetEffectiveConfig] of internal/config is called
    by track.go and integration.go but its body is not among the sources.
    The spec (4.1) says that a zero/unset field of the chosen block is
    filled from the hard default [{5, 60, 300}]; the test
    [TestAutoDisableConfig_GetEffectiveConfig] adds that a nil receiver
    yields the default and that non-zero fields are kept.  A pointer
    receiver is an [option]. *)
Definition GetEffectiveConfig (c : option AutoDisableConfig) : AutoDisableConfig :=
  match c with
  | None => hardDefault
  | Some c =>
      {| FailureThreshold :=
           if FailureThreshold c =? 0 then 5 else FailureThreshold c;
         TimeWindowSeconds :=
           if TimeWindowSeconds c =? 0 then 60 else TimeWindowSeconds c;
         DisableDurationSeconds :=
           if DisableDurationSeconds c =? 0 then 300 else DisableDurationSeconds c |}
  end.

End config.

(** ** [internal/failure] *)

Module failure.
Import GoTime config.

(** Go's [error]; [nil] is [None]. *)
Definition error := option string.
Definition noError : error := None.

(** *** integration.go *)

Definition GetEffectiveAutoDisableConfig
    (globalConfig vendorConfig modelConfig : option AutoDisableConfig)
    : AutoDisableConfig :=
  match modelConfig with
  | Some _ => GetEffectiveConfig modelConfig
  | None =>
      match vendorConfig with
      | Some _ => GetEffectiveConfig vendorConfig
      | None =>
          match globalConfig with
          | Some _ => GetEffectiveConfig globalConfig
          | None =>
              {| FailureThreshold := 5;
                 TimeWindowSeconds := 60;
                 DisableDurationSeconds := 300 |}
          end
      end
  end.

(** The resolver in the words of the design (4.1): the whole block of the
    most specific level that is present, its zero fields filled from the
    hard default; the hard default when no level is present. *)
Definition mostSpecific (globalConfig vendorConfig modelConfig : option AutoDisableConfig)
    : option AutoDisableConfig :=
  match modelConfig, vendorConfig with
  | Some c, _ => Some c
  | None, Some c => Some c
  | None, None => globalConfig
  end.

Definition fillFromDefault (c : AutoDisableConfig) : AutoDisableConfig :=
  {| FailureThreshold :=
       if FailureThreshold c =? 0 then FailureThreshold hardDefault
       else FailureThreshold c;
     TimeWindowSeconds :=
       if TimeWindowSeconds c =? 0 then TimeWindowSeconds hardDefault
       else TimeWindowSeconds c;
     DisableDurationSeconds :=
       if DisableDurationSeconds c =? 0 then DisableDurationSeconds hardDefault
       else DisableDurationSeconds c |}.

Definition resolve_spec (globalConfig vendorConfig modelConfig : option AutoDisableConfig)
    : AutoDisableConfig :=
  match mostSpecific globalConfig vendorConfig modelConfig with
  | Some c => fillFromDefault c
  | None => hardDefault
  end.

Definition fullyPopulated (c : AutoDisableConfig) : Prop :=
  FailureThreshold c <> 0
  /\ TimeWindowSeconds c <> 0
  /\ DisableDurationSeconds c <> 0.

(** *** track.go: data *)

Record DisabledModel := mkDisabledModel {
  DM_Vendor : string;
  DM_Model : string;
  DM_FailureCount : Z;
  DM_DisabledAt : Time;
  DM_DisabledUntil : Time;
  DM_RemainingTime : Duration;
  DM_FailureThreshold : Z
}.

Record FailureRecord := mkFailureRecord {
  Vendor : string;
  Model : string;
  FailureCount : Z;            (* int32 *)
  FirstFailure : Time;
  LastFailure : Time;
  DisabledAt : Time;
  DisabledUntil : Time;
  EffectiveConfig : AutoDisableConfig
}.

Record failureTracker := mkFailureTracker {
  records : gmap string FailureRecord;
  globalConfig : option AutoDisableConfig
}.

(** The tracker of the tests: [&failureTracker{globalConfig: cfg, ...}]. *)
Definition newTracker (cfg : option AutoDisableConfig) : failureTracker :=
  {| records := ∅; globalConfig := cfg |}.

Definition withRecords (t : failureTracker) (m : gmap string FailureRecord)
    : failureTracker :=
  {| records := m; globalConfig := globalConfig t |}.

(** [t.records.Store(key, record)] *)
Definition Store (t : failureTracker) (k : string) (r : FailureRecord)
    : failureTracker :=
  withRecords t (<[k := r]> (records t)).

(** *** track.go: operations *)

(** [fmt.Sprintf("%s:%s", vendor, model)] *)
Definition key (vendor model : string) : string :=
  vendor +:+ ":" +:+ model.

Definition GetEffectiveConfig (t : failureTracker) (vendor model : string)
    : AutoDisableConfig :=
  match globalConfig t with
  | None =>
      {| FailureThreshold := 5;
         TimeWindowSeconds := 60;
         DisableDurationSeconds := 300 |}
  | Some _ => config.GetEffectiveConfig (globalConfig t)
  end.

Definition loadOrStore (t : failureTracker) (k vendor model : string)
    (cfg : AutoDisableConfig) : failureTracker * FailureRecord * bool :=
  match records t !! k with
  | Some actual => (t, actual, true)
  | None =>
      let fresh :=
        {| Vendor := vendor; Model := model; FailureCount := 0;
           FirstFailure := zeroTime; LastFailure := zeroTime;
           DisabledAt := zeroTime; DisabledUntil := zeroTime;
           EffectiveConfig := cfg |} in
      (Store t k fresh, fresh, false)
  end.

(** The first branch of [TrackFailure]: count and first failure. *)
Definition countFailure (exists_ : bool) (now : Time) (r : FailureRecord)
    : FailureRecord :=
  if exists_ then
    {| Vendor := Vendor r; Model := Model r;
       FailureCount := wrap32 (FailureCount r + 1);
       FirstFailure := FirstFailure r; LastFailure := now;
       DisabledAt := DisabledAt r; DisabledUntil := DisabledUntil r;
       EffectiveConfig := EffectiveConfig r |}
  else
    {| Vendor := Vendor r; Model := Model r;
       FailureCount := 1;
       FirstFailure := now; LastFailure := now;
       DisabledAt := DisabledAt r; DisabledUntil := DisabledUntil r;
       EffectiveConfig := EffectiveConfig r |}.

(** The condition of the [if] that disables. *)
Definition shouldDisable (cfg : AutoDisableConfig) (now : Time)
    (r : FailureRecord) : bool :=
  let windowStart := Add now (negSeconds (TimeWindowSeconds cfg)) in
  After (FirstFailure r) windowStart
  && (FailureThreshold cfg <=? FailureCount r).

Definition disable (cfg : AutoDisableConfig) (now : Time) (r : FailureRecord)
    : FailureRecord :=
  {| Vendor := Vendor r; Model := Model r;
     FailureCount := FailureCount r;
     FirstFailure := FirstFailure r; LastFailure := LastFailure r;
     DisabledAt := now;
     DisabledUntil := Add now (seconds (DisableDurationSeconds cfg));
     EffectiveConfig := EffectiveConfig r |}.

Definition TrackFailure (t : failureTracker) (vendor model : string)
    (now : Time) : failureTracker * error :=
  let k := key vendor model in
  let effectiveConfig := GetEffectiveConfig t vendor model in
  let '(t, record, exists_) := loadOrStore t k vendor model effectiveConfig in
  let record := countFailure exists_ now record in
  let record :=
    if shouldDisable effectiveConfig now record
    then disable effectiveConfig now record
    else record in
  (Store t k record, noError).

(** The five assignments shared by [EnableModel] and [checkAndReenable]. *)
Definition clearRecord (r : FailureRecord) : FailureRecord :=
  {| Vendor := Vendor r; Model := Model r;
     FailureCount := 0;
     FirstFailure := zeroTime; LastFailure := zeroTime;
     DisabledAt := zeroTime; DisabledUntil := zeroTime;
     EffectiveConfig := EffectiveConfig r |}.

Definition TrackSuccess (t : failureTracker) (vendor model : string)
    : failureTracker * error :=
  let k := key vendor model in
  match records t !! k with
  | None => (t, noError)
  | Some rec =>
      let rec :=
        if IsZero (DisabledUntil rec) then
          {| Vendor := Vendor rec; Model := Model rec;
             FailureCount := 0;
             FirstFailure := zeroTime; LastFailure := LastFailure rec;
             DisabledAt := DisabledAt rec; DisabledUntil := DisabledUntil rec;
             EffectiveConfig := EffectiveConfig rec |}
        else rec in
      (Store t k rec, noError)
  end.

(** The test shared by [IsDisabled] and [GetDisabledModels]. *)
Definition disabledNow (now : Time) (r : FailureRecord) : bool :=
  negb (IsZero (DisabledAt r)) && Before now (DisabledUntil r).

Definition IsDisabled (t : failureTracker) (vendor model : string)
    (now : Time) : bool * error :=
  let k := key vendor model in
  match records t !! k with
  | None => (false, noError)
  | Some rec =>
      if disabledNow now rec then (true, noError) else (false, noError)
  end.

(** [GetDisabledModels] reads the clock once on entry ([now]) and once
    more inside [time.Until] for each record it reports ([untilNow k],
    for the record under key [k]).  [Range] visits the entries in an
    unspecified order; here it is the order of [map_to_list]. *)
Definition GetDisabledModels (t : failureTracker) (now : Time)
    (untilNow : string -> Time) : list DisabledModel :=
  omap (fun kv : string * FailureRecord =>
          let record := kv.2 in
          if disabledNow now record then
            Some {| DM_Vendor := Vendor record;
                    DM_Model := Model record;
                    DM_FailureCount := FailureCount record;
                    DM_DisabledAt := DisabledAt record;
                    DM_DisabledUntil := DisabledUntil record;
                    DM_RemainingTime := Until (untilNow kv.1) (DisabledUntil record);
                    DM_FailureThreshold := FailureThreshold (EffectiveConfig record) |}
          else None)
       (map_to_list (records t)).

Definition EnableModel (t : failureTracker) (vendor model : string)
    : failureTracker * error :=
  let k := key vendor model in
  match records t !! k with
  | None => (t, noError)
  | Some rec => (Store t k (clearRecord rec), noError)
  end.

Definition GetFailureCount (t : failureTracker) (vendor model : string)
    : Z * error :=
  let k := key vendor model in
  match records t !! k with
  | None => (0, noError)
  | Some rec => (FailureCount rec, noError)
  end.

(** The condition of the [if] of the sweep. *)
Definition expired (now : Time) (r : FailureRecord) : bool :=
  negb (IsZero (DisabledAt r)) && After now (DisabledUntil r).

(** One tick of [autoReenableLoop]. *)
Definition checkAndReenable (t : failureTracker) (now : Time) : failureTracker :=
  withRecords t
    ((fun record => if expired now record then clearRecord record else record)
       <$> records t).

(** *** track.go: the interface and the mock *)

(** The interface [FailureTracker], in state-passing style; the methods
    that read the clock take the reading.  [Close] only stops the
    background loop. *)
Class FailureTracker (T : Type) := {
  iTrackFailure : T -> string -> string -> Time -> T * error;
  iTrackSuccess : T -> string -> string -> T * error;
  iIsDisabled : T -> string -> string -> Time -> bool * error;
  iGetDisabledModels : T -> Time -> (string -> Time) -> list DisabledModel;
  iEnableModel : T -> string -> string -> T * error;
  iGetFailureCount : T -> string -> string -> Z * error
}.

#[export] Instance failureTracker_FailureTracker : FailureTracker failureTracker := {
  iTrackFailure := TrackFailure;
  iTrackSuccess := TrackSuccess;
  iIsDisabled := IsDisabled;
  iGetDisabledModels := GetDisabledModels;
  iEnableModel := EnableModel;
  iGetFailureCount := GetFailureCount
}.

Record MockFailureTracker := mkMockFailureTracker {
  disabled : gmap string bool;
  failures : gmap string Z;
  failOnError : error
}.

Definition NewMockFailureTracker : MockFailureTracker :=
  {| disabled := ∅; failures := ∅; failOnError := None |}.

(** [splitKey]: the parts before and after the first colon. *)
Fixpoint splitKey (k : string) : string * string :=
  match k with
  | EmptyString => (EmptyString, EmptyString)
  | String c rest =>
      if Ascii.eqb c (":" : Ascii.ascii) then (EmptyString, rest)
      else let parts := splitKey rest in (String c parts.1, parts.2)
  end.

Module Mock.

Definition TrackFailure (m : MockFailureTracker) (vendor model : string)
    (now : Time) : MockFailureTracker * error :=
  match failOnError m with
  | Some e => (m, Some e)
  | None =>
      let k := key vendor model in
      ({| disabled := disabled m;
          failures := <[k := wrap32 (default 0 (failures m !! k) + 1)]> (failures m);
          failOnError := failOnError m |}, noError)
  end.

Definition TrackSuccess (m : MockFailureTracker) (vendor model : string)
    : MockFailureTracker * error :=
  let k := key vendor model in
  ({| disabled := delete k (disabled m);
      failures := <[k := 0]> (failures m);
      failOnError := failOnError m |}, noError).

Definition IsDisabled (m : MockFailureTracker) (vendor model : string)
    (now : Time) : bool * error :=
  (default false (disabled m !! key vendor model), noError).

Definition GetDisabledModels (m : MockFailureTracker) (now : Time)
    (untilNow : string -> Time) : list DisabledModel :=
  omap (fun kd : string * bool =>
          if kd.2 then
            let parts := splitKey kd.1 in
            Some {| DM_Vendor := parts.1; DM_Model := parts.2;
                    DM_FailureCount := 0;
                    DM_DisabledAt := zeroTime; DM_DisabledUntil := zeroTime;
                    DM_RemainingTime := 0; DM_FailureThreshold := 0 |}
          else None)
       (map_to_list (disabled m)).

Definition EnableModel (m : MockFailureTracker) (vendor model : string)
    : MockFailureTracker * error :=
  let k := key vendor model in
  ({| disabled := delete k (disabled m);
      failures := delete k (failures m);
      failOnError := failOnError m |}, noError).

Definition GetFailureCount (m : MockFailureTracker) (vendor model : string)
    : Z * error :=
  (default 0 (failures m !! key vendor model), noError).

Definition SetDisabled (m : MockFailureTracker) (vendor model : string)
    (d : bool) : MockFailureTracker :=
  {| disabled := <[key vendor model := d]> (disabled m);
     failures := failures m;
     failOnError := failOnError m |}.

End Mock.

#[export] Instance MockFailureTracker_FailureTracker : FailureTracker MockFailureTracker := {
  iTrackFailure := Mock.TrackFailure;
  iTrackSuccess := Mock.TrackSuccess;
  iIsDisabled := Mock.IsDisabled;
  iGetDisabledModels := Mock.GetDisabledModels;
  iEnableModel := Mock.EnableModel;
  iGetFailureCount := Mock.GetFailureCount
}.

(** *** routing.go *)

(** The field [tracker] holds an interface value, which may be nil. *)
Record RoutingIntegration (T : Type) := mkRoutingIntegration {
  tracker : option T
}.
Arguments tracker {T} _.
Arguments mkRoutingIntegration {T} _.

Definition NewRoutingIntegration {T : Type} (tr : option T) : RoutingIntegration T :=
  {| tracker := tr |}.

Section Routing.
Context {T : Type} `{FailureTracker T}.

Definition IsModelDisabled (ri : RoutingIntegration T) (vendor model : string)
    (now : Time) : bool * error :=
  match tracker ri with
  | None => (false, noError)
  | Some tr => iIsDisabled tr vendor model now
  end.

Definition IsEnabled (ri : RoutingIntegration T) (vendor model : string)
    (explicitlyEnabled : option bool) (now : Time) : bool * error :=
  if match explicitlyEnabled with Some b => negb b | None => false end
  then (false, noError)
  else
    let '(disabled, err) := IsModelDisabled ri vendor model now in
    match err with
    | Some _ => (false, err)
    | None => (negb disabled, noError)
    end.

End Routing.

(** *** Runs of the tracker *)

(** The calls that change the store.  [Sweep] is one tick of the
    auto-reenable loop. *)
Inductive op :=
| CallTrackFailure (vendor model : string) (now : Time)
| CallTrackSuccess (vendor model : string)
| CallEnableModel (vendor model : string)
| Sweep (now : Time).

Definition apply (t : failureTracker) (o : op) : failureTracker :=
  match o with
  | CallTrackFailure vendor model now => (TrackFailure t vendor model now).1
  | CallTrackSuccess vendor model => (TrackSuccess t vendor model).1
  | CallEnableModel vendor model => (EnableModel t vendor model).1
  | Sweep now => checkAndReenable t now
  end.

(** The clock readings an operation takes are readings of a real clock. *)
Definition clockOk (o : op) : Prop :=
  match o with
  | CallTrackFailure _ _ now | Sweep now => validNow now
  | _ => True
  end.

(** The trackers reachable from the empty store of a tracker with global
    configuration [cfg]. *)
Inductive reachable (cfg : option AutoDisableConfig) : failureTracker -> Prop :=
| reachable_new : reachable cfg (newTracker cfg)
| reachable_step t o :
    reachable cfg t -> clockOk o -> reachable cfg (apply t o).

(** [TrackFailure] called once for each clock reading of [times]. *)
Fixpoint trackFailures (t : failureTracker) (vendor model : string)
    (times : list Time) : failureTracker :=
  match times with
  | [] => t
  | now :: rest => trackFailures (TrackFailure t vendor model now).1 vendor model rest
  end.

(** The record [TrackFailure] stores: the record it loaded or created,
    counted and, when the condition holds, disabled. *)
Definition failureStep (cfg : AutoDisableConfig) (now : Time) (exists_ : bool)
    (r : FailureRecord) : FailureRecord :=
  let r := countFailure exists_ now r in
  if shouldDisable cfg now r then disable cfg now r else r.

(** The record [loadOrStore] creates. *)
Definition freshRecord (vendor model : string) (cfg : AutoDisableConfig)
    : FailureRecord :=
  {| Vendor := vendor; Model := model; FailureCount := 0;
     FirstFailure := zeroTime; LastFailure := zeroTime;
     DisabledAt := zeroTime; DisabledUntil := zeroTime;
     EffectiveConfig := cfg |}.

(** What [TrackSuccess] does to a record that is not marked disabled. *)
Definition resetCount (r : FailureRecord) : FailureRecord :=
  {| Vendor := Vendor r; Model := Model r;
     FailureCount := 0;
     FirstFailure := zeroTime; LastFailure := LastFailure r;
     DisabledAt := DisabledAt r; DisabledUntil := DisabledUntil r;
     EffectiveConfig := EffectiveConfig r |}.

(** A configuration whose threshold fits the [int32] counter and whose
    window and duration, in nanoseconds, fit a [time.Duration]. *)
Definition saneConfig (cfg : AutoDisableConfig) : Prop :=
  1 <= FailureThreshold cfg <= 2 ^ 31 - 1
  /\ 0 < TimeWindowSeconds cfg * Second <= maxDuration
  /\ 0 < DisableDurationSeconds cfg * Second <= maxDuration.

(** All failures of [times] lie less than the counting window after the
    first one. *)
Definition withinWindow (cfg : AutoDisableConfig) (times : list Time) : Prop :=
  match times with
  | [] => True
  | first :: _ =>
      Forall (fun now => now - first < TimeWindowSeconds cfg * Second) times
  end.

(** The key an operation works on; the sweep works on all of them. *)
Definition opKey (o : op) : option string :=
  match o with
  | CallTrackFailure vendor model _
  | CallTrackSuccess vendor model
  | CallEnableModel vendor model => Some (key vendor model)
  | Sweep _ => None
  end.

(** *** Invariants of the store *)

(** The two disable stamps are both zero or both set. *)
Definition pairedStamps (r : FailureRecord) : Prop :=
  (DisabledAt r = zeroTime /\ DisabledUntil r = zeroTime)
  \/ (DisabledAt r <> zeroTime /\ DisabledUntil r <> zeroTime).

(** Every record is stored under the key of the vendor and model it names. *)
Definition keyed (t : failureTracker) : Prop :=
  forall k r, records t !! k = Some r -> key (Vendor r) (Model r) = k.

(** A string without a colon. *)
Fixpoint colonFree (s : string) : bool :=
  match s with
  | EmptyString => true
  | String c rest => negb (Ascii.eqb c (":" : Ascii.ascii)) && colonFree rest
  end.

(** *** Scenarios *)

(** A clock reading in 2026. *)
Definition T0 : Z := unixEpoch + 1770000000 * Second.

(** Default configuration, five failures of one pair at once: the first
    scenario of the tests. *)
Definition disabledTracker : failureTracker :=
  trackFailures (newTracker None) "openai" "gpt-4" [T0; T0; T0; T0; T0].

(** The same for a vendor whose name contains a colon. *)
Definition aliasTracker : failureTracker :=
  trackFailures (newTracker None) "a:b" "c" [T0; T0; T0; T0; T0].

(** A tracker whose [IsDisabled] always fails. *)
Inductive brokenTracker := Broken.

#[export] Instance brokenTracker_FailureTracker : FailureTracker brokenTracker := {
  iTrackFailure := fun b _ _ _ => (b, Some "broken"%string);
  iTrackSuccess := fun b _ _ => (b, Some "broken"%string);
  iIsDisabled := fun _ _ _ _ => (true, Some "broken"%string);
  iGetDisabledModels := fun _ _ _ => [];
  iEnableModel := fun b _ _ => (b, Some "broken"%string);
  iGetFailureCount := fun _ _ _ => (0, Some "broken"%string)
}.

(** *** integration.go: the integration helper *)

Module integration.

(** The field [tracker] holds an interface value, which may be nil.  The
    tracker is reached through a pointer, so a method that changes it
    returns the integration with the changed tracker.  The [ctx] arguments
    are not used by the code. *)
Record Integration (T : Type) := mkIntegration {
  tracker : option T
}.
Arguments tracker {T} _.
Arguments mkIntegration {T} _.

Definition NewIntegration {T : Type} (tr : option T) : Integration T :=
  {| tracker := tr |}.

Section Methods.
Context {T : Type} `{FailureTracker T}.

Definition OnRequestStart (i : Integration T) (vendor model : string)
    (now : Time) : bool * error :=
  match tracker i with
  | None => (false, noError)
  | Some tr =>
      let '(disabled, err) := iIsDisabled tr vendor model now in
      match err with
      | Some _ => (false, err)
      | None => (disabled, noError)
      end
  end.

Definition OnRequestSuccess (i : Integration T) (vendor model : string)
    : Integration T * error :=
  match tracker i with
  | None => (i, noError)
  | Some tr =>
      let '(tr, err) := iTrackSuccess tr vendor model in
      ({| tracker := Some tr |}, err)
  end.

Definition OnRequestFailure (i : Integration T) (vendor model : string)
    (now : Time) : Integration T * error :=
  match tracker i with
  | None => (i, noError)
  | Some tr =>
      let '(tr, err) := iTrackFailure tr vendor model now in
      ({| tracker := Some tr |}, err)
  end.

Definition IsModelDisabled (i : Integration T) (vendor model : string)
    (now : Time) : bool * error :=
  match tracker i with
  | None => (false, noError)
  | Some tr => iIsDisabled tr vendor model now
  end.

Definition GetAllDisabledModels (i : Integration T) (now : Time)
    (untilNow : string -> Time) : list DisabledModel :=
  match tracker i with
  | None => []
  | Some tr => iGetDisabledModels tr now untilNow
  end.

Definition EnableModel (i : Integration T) (vendor model : string)
    : Integration T * error :=
  match tracker i with
  | None => (i, noError)
  | Some tr =>
      let '(tr, err) := iEnableModel tr vendor model in
      ({| tracker := Some tr |}, err)
  end.

Definition GetFailureCount (i : Integration T) (vendor model : string)
    : Z * error :=
  match tracker i with
  | None => (0, noError)
  | Some tr => iGetFailureCount tr vendor model
  end.

Definition Tracker (i : Integration T) : option T := tracker i.

End Methods.

End integration.

(** *** Runs, continued *)

(** The operations of [ops] applied in turn. *)
Definition run (t : failureTracker) (ops : list op) : failureTracker :=
  foldl apply t ops.

End failure.

(** ** [internal/runtime/executor]: vendor names *)

Module executor.

Definition ProviderAliases : gmap string string :=
  list_to_map
    [ ("openai-compat", "openai-compatibility");
      ("vertex", "vertex");
      ("gemini", "gemini");
      ("gemini-cli", "gemini-cli");
      ("claude", "claude");
      ("codex", "codex");
      ("qwen", "qwen");
      ("aistudio", "aistudio");
      ("antigravity", "antigravity");
      ("iflow", "iflow") ]%string.

Definition GetVendorName (provider : string) : string :=
  match ProviderAliases !! provider with
  | Some alias => alias
  | None => provider
  end.

End executor.

(** ** [internal/storage/postgres]: query.go *)

Module postgres.

(** The loop of [joinConditions]: [result] after the conditions of index
    [i], [i + 1], ... *)
Fixpoint joinConditions_loop (i : nat) (result : string) (conditions : list string)
    : string :=
  match conditions with
  | [] => result
  | c :: rest =>
      let result := if (0 <? i)%nat then result +:+ " AND " else result in
      joinConditions_loop (S i) (result +:+ c) rest
  end.

Definition joinConditions (conditions : list string) : string :=
  if (length conditions =? 0)%nat then ""
  else joinConditions_loop 0 "" conditions.

End postgres.

(** ** [internal/api/handlers/management]: failure_tracking.go *)

Module management.
Import GoTime failure.

(** The values the handlers put in a [gin.H]. *)
Inductive jsonValue :=
| JString (s : string)
| JNumber (n : Z)
| JBool (b : bool).

(** What [c.JSON(status, body)] writes. *)
Record response := mkResponse {
  status : Z;
  body : gmap string jsonValue
}.

Definition StatusOK : Z := 200.
Definition StatusBadRequest : Z := 400.
Definition StatusInternalServerError : Z := 500.

(** [gin.H{...}] *)
Definition H (fields : list (string * jsonValue)) : gmap string jsonValue :=
  list_to_map fields.

(** [strings.SplitN(s, ":", 2)]: the parts before and after the first
    colon, or [s] alone when it has none. *)
Fixpoint cutColon (s : string) : option (string * string) :=
  match s with
  | EmptyString => None
  | String c rest =>
      if Ascii.eqb c (":" : Ascii.ascii) then Some (EmptyString, rest)
      else match cutColon rest with
           | Some (before, after) => Some (String c before, after)
           | None => None
           end
  end.

Definition SplitN_colon_2 (s : string) : list string :=
  match cutColon s with
  | Some (before, after) => [before; after]
  | None => [s]
  end.

(** Of the fields of [Handler] these handlers use [failureIntegration], a
    pointer to an [Integration]. *)
Record Handler (T : Type) := mkHandler {
  failureIntegration : option (integration.Integration T)
}.
Arguments failureIntegration {T} _.
Arguments mkHandler {T} _.

Definition setFailureTracker {T : Type} (h : Handler T) (tracker : option T)
    : Handler T :=
  match tracker with
  | Some _ => {| failureIntegration := Some (integration.NewIntegration tracker) |}
  | None => {| failureIntegration := None |}
  end.

Definition SetFailureTracker {T : Type} (h : Handler T) (tracker : option T)
    : Handler T :=
  setFailureTracker h tracker.

Section Handlers.
Context {T : Type} `{FailureTracker T}.

(** [modelID] is [c.Param("modelId")]. *)
Definition GetModelStatus (h : Handler T) (modelID : string) (now : Time)
    : response :=
  if String.eqb modelID "" then
    mkResponse StatusBadRequest (H [("error", JString "modelId is required")])
  else
    match SplitN_colon_2 modelID with
    | [vendor; model] =>
        match failureIntegration h with
        | None =>
            mkResponse StatusOK
              (H [("vendor", JString vendor);
                  ("model", JString model);
                  ("disabled", JBool false);
                  ("failureCount", JNumber 0);
                  ("message", JString "failure tracking not enabled")])
        | Some fi =>
            let '(disabled, _) := integration.IsModelDisabled fi vendor model now in
            let '(failureCount, _) := integration.GetFailureCount fi vendor model in
            mkResponse StatusOK
              (H [("vendor", JString vendor);
                  ("model", JString model);
                  ("disabled", JBool disabled);
                  ("failureCount", JNumber failureCount)])
        end
    | _ =>
        mkResponse StatusBadRequest
          (H [("error", JString "modelId must be in format 'vendor:model'")])
    end.

Definition EnableModel (h : Handler T) (modelID : string)
    : Handler T * response :=
  if String.eqb modelID "" then
    (h, mkResponse StatusBadRequest (H [("error", JString "modelId is required")]))
  else
    match SplitN_colon_2 modelID with
    | [vendor; model] =>
        match failureIntegration h with
        | None =>
            (h, mkResponse StatusOK
                  (H [("status", JString "noop");
                      ("message", JString "failure tracking not enabled")]))
        | Some fi =>
            let '(fi, err) := integration.EnableModel fi vendor model in
            let h := {| failureIntegration := Some fi |} in
            match err with
            | Some msg =>
                (h, mkResponse StatusInternalServerError (H [("error", JString msg)]))
            | None =>
                (h, mkResponse StatusOK
                      (H [("status", JString "success");
                          ("vendor", JString vendor);
                          ("model", JString model);
                          ("message", JString "model re-enabled successfully")]))
            end
        end
    | _ =>
        (h, mkResponse StatusBadRequest
              (H [("error", JString "modelId must be in format 'vendor:model'")]))
    end.

(** The body of the loop of [EnableAllModels]: the integration and the
    count after one entry of the list. *)
Definition enableOne (acc : integration.Integration T * Z) (dm : DisabledModel)
    : integration.Integration T * Z :=
  let '(fi, err) := integration.EnableModel acc.1 (DM_Vendor dm) (DM_Model dm) in
  match err with
  | Some _ => (fi, acc.2)
  | None => (fi, acc.2 + 1)
  end.

Definition EnableAllModels (h : Handler T) (now : Time) (untilNow : string -> Time)
    : Handler T * response :=
  match failureIntegration h with
  | None =>
      (h, mkResponse StatusOK
            (H [("status", JString "noop");
                ("message", JString "failure tracking not enabled")]))
  | Some fi =>
      let disabled := integration.GetAllDisabledModels fi now untilNow in
      let '(fi, count) := foldl enableOne (fi, 0) disabled in
      ({| failureIntegration := Some fi |},
       mkResponse StatusOK
         (H [("status", JString "success");
             ("enabledCount", JNumber count);
             ("totalModels", JNumber (Z.of_nat (length disabled)))]))
  end.

End Handlers.

End management.

(** * Properties *)

(** ** Arithmetic of times and durations *)

Module TimeFacts.
Import GoTime.

Lemma wrap64_small z : minDuration <= z <= maxDuration -> wrap64 z = z.
Proof.
  unfold wrap64, minDuration, maxDuration. intros Hz.
  rewrite Z.mod_small; lia.
Qed.

Lemma wrap64_range z : minDuration <= wrap64 z <= maxDuration.
Proof.
  unfold wrap64, minDuration, maxDuration.
  pose proof (Z.mod_pos_bound (z + 2 ^ 63) (2 ^ 64)). lia.
Qed.

Lemma wrap32_small z : - 2 ^ 31 <= z <= 2 ^ 31 - 1 -> wrap32 z = z.
Proof.
  unfold wrap32. intros Hz. rewrite Z.mod_small; lia.
Qed.

Lemma seconds_range n : minDuration <= seconds n <= maxDuration.
Proof. apply wrap64_range. Qed.

Lemma seconds_small n : 0 <= n * Second <= maxDuration -> seconds n = n * Second.
Proof.
  unfold seconds, Second, maxDuration. intros Hn.
  rewrite (wrap64_small n); [apply wrap64_small|];
    unfold minDuration, maxDuration, Second; lia.
Qed.

Lemma negSeconds_small n :
  0 <= n * Second <= maxDuration -> negSeconds n = - (n * Second).
Proof.
  unfold negSeconds, Second, maxDuration. intros Hn.
  rewrite (wrap64_small n) by (unfold minDuration, maxDuration; lia).
  rewrite (wrap64_small (- n)) by (unfold minDuration, maxDuration; lia).
  rewrite wrap64_small; unfold minDuration, maxDuration; lia.
Qed.

(** A real clock reading moved by any [int64] duration is not the zero
    time: the zero time is more than 292 years before the Unix epoch. *)
Lemma Add_valid_pos now d :
  validNow now -> minDuration <= d <= maxDuration -> 0 < Add now d.
Proof.
  unfold validNow, unixEpoch, Second, Add, minDuration, maxDuration. lia.
Qed.

Lemma valid_pos now : validNow now -> 0 < now.
Proof. unfold validNow, unixEpoch, Second. lia. Qed.

Lemma IsZero_true t : IsZero t = true <-> t = 0.
Proof. unfold IsZero. apply Z.eqb_eq. Qed.

Lemma IsZero_false t : IsZero t = false <-> t <> 0.
Proof. unfold IsZero. apply Z.eqb_neq. Qed.

End TimeFacts.

(** ** The store after each operation *)

Module TrackerFacts.
Import GoTime config failure TimeFacts.

Lemma TrackFailure_config t v m now :
  globalConfig (TrackFailure t v m now).1 = globalConfig t.
Proof.
  unfold TrackFailure, loadOrStore.
  destruct (records t !! key v m); reflexivity.
Qed.

Lemma TrackFailure_effective t v m now v' m' :
  GetEffectiveConfig (TrackFailure t v m now).1 v' m' = GetEffectiveConfig t v' m'.
Proof. unfold GetEffectiveConfig. now rewrite TrackFailure_config. Qed.

Lemma TrackFailure_records t v m now :
  records (TrackFailure t v m now).1 =
  <[key v m :=
      let cfg := GetEffectiveConfig t v m in
      match records t !! key v m with
      | Some r => failureStep cfg now true r
      | None => failureStep cfg now false (freshRecord v m cfg)
      end]> (records t).
Proof.
  unfold TrackFailure, loadOrStore, failureStep, freshRecord.
  destruct (records t !! key v m) as [r|]; cbn; [reflexivity|].
  apply insert_insert_eq.
Qed.

Lemma TrackFailure_lookup_ne t v m now k :
  k <> key v m -> records (TrackFailure t v m now).1 !! k = records t !! k.
Proof.
  intros Hk. rewrite TrackFailure_records. now apply lookup_insert_ne.
Qed.

Lemma TrackFailure_noError t v m now : (TrackFailure t v m now).2 = noError.
Proof.
  unfold TrackFailure, loadOrStore.
  destruct (records t !! key v m); reflexivity.
Qed.

Lemma TrackSuccess_records t v m :
  records (TrackSuccess t v m).1 =
  match records t !! key v m with
  | Some r =>
      <[key v m := if IsZero (DisabledUntil r) then resetCount r else r]> (records t)
  | None => records t
  end.
Proof.
  unfold TrackSuccess. destruct (records t !! key v m); reflexivity.
Qed.

Lemma TrackSuccess_config t v m :
  globalConfig (TrackSuccess t v m).1 = globalConfig t.
Proof.
  unfold TrackSuccess. destruct (records t !! key v m); reflexivity.
Qed.

Lemma EnableModel_records t v m :
  records (EnableModel t v m).1 =
  match records t !! key v m with
  | Some r => <[key v m := clearRecord r]> (records t)
  | None => records t
  end.
Proof.
  unfold EnableModel. destruct (records t !! key v m); reflexivity.
Qed.

Lemma EnableModel_config t v m :
  globalConfig (EnableModel t v m).1 = globalConfig t.
Proof.
  unfold EnableModel. destruct (records t !! key v m); reflexivity.
Qed.

Lemma checkAndReenable_lookup t now k :
  records (checkAndReenable t now) !! k =
  (fun r => if expired now r then clearRecord r else r) <$> records t !! k.
Proof. unfold checkAndReenable. cbn. apply lookup_fmap. Qed.

(** A tracker is its two fields. *)
Lemma tracker_eq t t' :
  records t = records t' -> globalConfig t = globalConfig t' -> t = t'.
Proof. destruct t, t'; cbn; intros -> ->; reflexivity. Qed.

Lemma Store_same t k r : records t !! k = Some r -> Store t k r = t.
Proof.
  intros Hr. apply tracker_eq; cbn; [now apply insert_id|reflexivity].
Qed.

(** A success on a record whose [disabledUntil] is set changes nothing. *)
Lemma TrackSuccess_marked t v m r :
  records t !! key v m = Some r -> DisabledUntil r <> zeroTime ->
  (TrackSuccess t v m).1 = t.
Proof.
  intros Hr Hnz. unfold TrackSuccess. rewrite Hr. cbn.
  apply IsZero_false in Hnz. rewrite Hnz. now apply Store_same.
Qed.

(** While the pair is disabled, [disabledUntil] is set. *)
Lemma disabledNow_marked now r :
  validNow now -> disabledNow now r = true -> DisabledUntil r <> zeroTime.
Proof.
  intros Hvalid Hdis. unfold disabledNow, Before in Hdis.
  apply andb_true_iff in Hdis as [_ Hlt]. apply Z.ltb_lt in Hlt.
  pose proof (valid_pos _ Hvalid). unfold zeroTime. lia.
Qed.

Lemma apply_config t o : globalConfig (apply t o) = globalConfig t.
Proof.
  destruct o; cbn;
    auto using TrackFailure_config, TrackSuccess_config, EnableModel_config.
Qed.

Lemma trackFailures_app t v m xs ys :
  trackFailures t v m (xs ++ ys) = trackFailures (trackFailures t v m xs) v m ys.
Proof.
  revert t. induction xs as [|x xs IH]; intros t; cbn; [reflexivity|apply IH].
Qed.

Lemma trackFailures_effective t v m times :
  GetEffectiveConfig (trackFailures t v m times) v m = GetEffectiveConfig t v m.
Proof.
  revert t. induction times as [|x xs IH]; intros t; cbn; [reflexivity|].
  rewrite IH. apply TrackFailure_effective.
Qed.

(** *** Failures that stay below the threshold only count *)

Lemma failureStep_below cfg now r :
  - 1 <= FailureCount r -> FailureCount r + 1 < FailureThreshold cfg ->
  FailureThreshold cfg <= 2 ^ 31 - 1 ->
  failureStep cfg now true r =
  {| Vendor := Vendor r; Model := Model r;
     FailureCount := FailureCount r + 1;
     FirstFailure := FirstFailure r; LastFailure := now;
     DisabledAt := DisabledAt r; DisabledUntil := DisabledUntil r;
     EffectiveConfig := EffectiveConfig r |}.
Proof.
  intros Hc Hlt Hmax. unfold failureStep, shouldDisable, countFailure. cbn.
  rewrite wrap32_small by lia.
  replace (FailureThreshold cfg <=? FailureCount r + 1) with false
    by (symmetry; apply Z.leb_gt; lia).
  now rewrite andb_false_r.
Qed.

Lemma failures_below t v m times :
  forall r,
    records t !! key v m = Some r ->
    0 <= FailureCount r ->
    FailureCount r + Z.of_nat (length times)
      < FailureThreshold (GetEffectiveConfig t v m) <= 2 ^ 31 - 1 ->
    exists r',
      records (trackFailures t v m times) !! key v m = Some r'
      /\ FailureCount r' = FailureCount r + Z.of_nat (length times)
      /\ FirstFailure r' = FirstFailure r
      /\ DisabledAt r' = DisabledAt r
      /\ DisabledUntil r' = DisabledUntil r.
Proof.
  revert t. induction times as [|now rest IH]; intros t r Hr Hc Hlt.
  - exists r. cbn. rewrite Z.add_0_r. auto.
  - cbn [trackFailures]. cbn [length] in Hlt.
    set (t1 := (TrackFailure t v m now).1).
    assert (Hr1 : records t1 !! key v m
                  = Some (failureStep (GetEffectiveConfig t v m) now true r)).
    { unfold t1. rewrite TrackFailure_records, lookup_insert_eq. cbn.
      now rewrite Hr. }
    rewrite failureStep_below in Hr1 by lia.
    destruct (IH t1 _ Hr1) as (r' & Hr' & Hcount & Hfirst & Hat & Huntil).
    + cbn. lia.
    + unfold t1. rewrite TrackFailure_effective. cbn. lia.
    + exists r'. cbn in *. repeat split; auto. lia.
Qed.

(** *** The disabling condition, for a window that fits a duration *)

Lemma shouldDisable_sane cfg now r :
  0 <= TimeWindowSeconds cfg * Second <= maxDuration ->
  shouldDisable cfg now r =
  (now - FirstFailure r <? TimeWindowSeconds cfg * Second)
  && (FailureThreshold cfg <=? FailureCount r).
Proof.
  intros Hw. unfold shouldDisable, After, Add.
  rewrite negSeconds_small by exact Hw. f_equal.
  apply eq_true_iff_eq. rewrite !Z.ltb_lt. lia.
Qed.

Lemma failures_from_none t v m first rest :
  records t !! key v m = None ->
  1 + Z.of_nat (length rest)
    < FailureThreshold (GetEffectiveConfig t v m) <= 2 ^ 31 - 1 ->
  exists r,
    records (trackFailures t v m (first :: rest)) !! key v m = Some r
    /\ FailureCount r = 1 + Z.of_nat (length rest)
    /\ FirstFailure r = first
    /\ DisabledAt r = zeroTime
    /\ DisabledUntil r = zeroTime.
Proof.
  intros Hnone Hlt. cbn [trackFailures].
  set (cfg := GetEffectiveConfig t v m) in *.
  set (t1 := (TrackFailure t v m first).1).
  assert (Hr1 : records t1 !! key v m
                = Some (countFailure false first (freshRecord v m cfg))).
  { unfold t1. rewrite TrackFailure_records, lookup_insert_eq, Hnone. cbn.
    unfold failureStep, shouldDisable. cbn. fold cfg.
    replace (FailureThreshold cfg <=? 1) with false
      by (symmetry; apply Z.leb_gt; lia).
    now rewrite andb_false_r. }
  destruct (failures_below t1 v m rest _ Hr1) as (r & Hr & Hc & Hf & Hat & Hun).
  - cbn. lia.
  - unfold t1. rewrite TrackFailure_effective. fold cfg. cbn. lia.
  - exists r. cbn in *. auto.
Qed.

End TrackerFacts.

(** ** The state machine of a pair *)

Module Tracker.
Import GoTime config failure TimeFacts TrackerFacts.

(** C1.  From a store with no record for the pair, [threshold] failures
    that all lie within the counting window of the first one leave the
    pair disabled (for a query made before the disable duration has run
    out), and [threshold - 1] such failures leave it enabled.  The
    configuration is one whose threshold fits the [int32] counter and whose
    window and duration fit a [time.Duration]. *)
Theorem threshold_failures_disable t vendor model (times : list Z) (now : Z) :
  let cfg := GetEffectiveConfig t vendor model in
  let t' := trackFailures t vendor model times in
  records t !! key vendor model = None ->
  saneConfig cfg ->
  Forall validNow times ->
  withinWindow cfg times ->
  (Z.of_nat (length times) = FailureThreshold cfg ->
   (forall tn, last times = Some tn ->
               now - tn < DisableDurationSeconds cfg * Second) ->
   IsDisabled t' vendor model now = (true, noError))
  /\ (Z.of_nat (length times) = FailureThreshold cfg - 1 ->
      IsDisabled t' vendor model now = (false, noError)).
Proof.
  intros cfg t' Hnone (Hth & Hw & Hd) Hvalid Hwin. split.
  - (* exactly threshold failures *)
    intros Hlen Hnow.
    destruct times as [|x xs] using rev_ind; [cbn in Hlen; lia|].
    clear IHxs. rename x into tn, xs into init.
    rewrite length_app in Hlen. cbn in Hlen.
    specialize (Hnow tn (last_snoc _ _)).
    rewrite Forall_app, Forall_singleton in Hvalid.
    destruct Hvalid as [_ Hvtn].
    assert (Hstep : exists r,
      records t' !! key vendor model = Some (disable cfg tn r)).
    { unfold t'. rewrite trackFailures_app. cbn [trackFailures].
      rewrite TrackFailure_records, lookup_insert_eq.
      rewrite trackFailures_effective. fold cfg. cbn zeta.
      destruct init as [|first mid].
      - cbn [trackFailures]. rewrite Hnone.
        exists (countFailure false tn (freshRecord vendor model cfg)).
        unfold failureStep. rewrite shouldDisable_sane by lia. cbn.
        replace (tn - tn <? TimeWindowSeconds cfg * Second) with true
          by (symmetry; apply Z.ltb_lt; lia).
        replace (FailureThreshold cfg <=? 1) with true
          by (symmetry; apply Z.leb_le; cbn in Hlen; lia).
        reflexivity.
      - destruct (failures_from_none t vendor model first mid Hnone)
          as (r & Hr & Hc & Hf & _ & _).
        { fold cfg. cbn [length] in Hlen. lia. }
        rewrite Hr. exists (countFailure true tn r).
        unfold failureStep. rewrite shouldDisable_sane by lia. cbn.
        cbn [length] in Hlen.
        rewrite wrap32_small by lia.
        cbn in Hwin.
        rewrite Forall_cons, Forall_app, Forall_singleton in Hwin.
        destruct Hwin as (_ & _ & Hwin).
        replace (tn - FirstFailure r <? TimeWindowSeconds cfg * Second)
          with true by (symmetry; apply Z.ltb_lt; lia).
        replace (FailureThreshold cfg <=? FailureCount r + 1) with true
          by (symmetry; apply Z.leb_le; lia).
        reflexivity. }
    destruct Hstep as (r & Hr).
    unfold IsDisabled. rewrite Hr. unfold disabledNow. cbn.
    rewrite seconds_small by lia.
    pose proof (valid_pos _ Hvtn) as Hpos.
    replace (IsZero tn) with false by (symmetry; apply IsZero_false; lia).
    replace (Before now (Add tn (DisableDurationSeconds cfg * Second)))
      with true by (symmetry; apply Z.ltb_lt; unfold Add; lia).
    reflexivity.
  - (* one failure fewer *)
    intros Hlen. unfold IsDisabled.
    destruct times as [|first rest].
    + unfold t'. cbn. now rewrite Hnone.
    + destruct (failures_from_none t vendor model first rest Hnone)
        as (r & Hr & _ & _ & Hat & _).
      { fold cfg. cbn in Hlen. lia. }
      fold t' in Hr. rewrite Hr. unfold disabledNow. rewrite Hat.
      reflexivity.
Qed.

Lemma threshold_failures_disable_witness :
  IsDisabled
    (trackFailures (newTracker None) "openai" "gpt-4"
       [T0; T0 + Second; T0 + 2 * Second; T0 + 3 * Second; T0 + 4 * Second])
    "openai" "gpt-4" (T0 + 5 * Second) = (true, noError)
  /\ IsDisabled
       (trackFailures (newTracker None) "openai" "gpt-4"
          [T0; T0 + Second; T0 + 2 * Second; T0 + 3 * Second])
       "openai" "gpt-4" (T0 + 5 * Second) = (false, noError).
Proof.
  split.
  - apply (threshold_failures_disable (newTracker None) "openai" "gpt-4"
             [T0; T0 + Second; T0 + 2 * Second; T0 + 3 * Second; T0 + 4 * Second]).
    + reflexivity.
    + vm_compute. repeat split; discriminate.
    + repeat constructor; vm_compute; discriminate.
    + repeat constructor; vm_compute; reflexivity.
    + reflexivity.
    + intros tn [= <-]. vm_compute. reflexivity.
  - apply (threshold_failures_disable (newTracker None) "openai" "gpt-4"
             [T0; T0 + Second; T0 + 2 * Second; T0 + 3 * Second]).
    + reflexivity.
    + vm_compute. repeat split; discriminate.
    + repeat constructor; vm_compute; discriminate.
    + repeat constructor; vm_compute; reflexivity.
    + reflexivity.
Defined.

(** After a reset the record is kept with its first-failure stamp cleared,
    and [TrackFailure] sets that stamp only when it creates the record:
    the hypothesis of C1 that the pair starts with no record is needed. *)
Example no_disable_after_reset :
  let t := (TrackFailure (newTracker None) "openai" "gpt-4" T0).1 in
  let t := (TrackSuccess t "openai" "gpt-4").1 in
  IsDisabled
    (trackFailures t "openai" "gpt-4" [T0; T0; T0; T0; T0; T0; T0])
    "openai" "gpt-4" T0 = (false, noError).
Proof. vm_compute. reflexivity. Qed.

(** *** Success *)

(** C3, as stated, fails: five failures at [T0] disable the pair until
    [T0 + 300 s]; one second later the pair is no longer disabled ([now] is
    not before [disabledUntil], and [IsDisabled] says so), yet a success
    leaves the failure count at 5, because the sweep has not yet cleared
    [disabledUntil]. *)
Lemma success_after_expiry_ignored :
  let now := T0 + 301 * Second in
  exists r,
    records disabledTracker !! key "openai" "gpt-4" = Some r
    /\ Before now (DisabledUntil r) = false
    /\ IsDisabled disabledTracker "openai" "gpt-4" now = (false, noError)
    /\ GetFailureCount (TrackSuccess disabledTracker "openai" "gpt-4").1
         "openai" "gpt-4" = (5, noError).
Proof.
  eexists. split; [vm_compute; reflexivity|].
  repeat split; vm_compute; reflexivity.
Qed.

(** C3, amended.  [TrackSuccess] never returns an error and does nothing
    when the pair has no record.  On a record whose [disabledUntil] is
    unset it sets the failure count to 0 and clears [firstFailure], leaving
    the other fields; on a record whose [disabledUntil] is set, whether the
    disable window is still running or has expired without the sweep or
    [EnableModel] clearing it, it changes nothing.  A pair that is
    currently disabled is of the second kind. *)
Theorem TrackSuccess_spec t vendor model :
  (TrackSuccess t vendor model).2 = noError
  /\ (records t !! key vendor model = None ->
      (TrackSuccess t vendor model).1 = t)
  /\ (forall r, records t !! key vendor model = Some r ->
      (DisabledUntil r = zeroTime ->
       exists r',
         records (TrackSuccess t vendor model).1 !! key vendor model = Some r'
         /\ FailureCount r' = 0
         /\ FirstFailure r' = zeroTime
         /\ (Vendor r', Model r', LastFailure r', EffectiveConfig r')
            = (Vendor r, Model r, LastFailure r, EffectiveConfig r)
         /\ (DisabledAt r', DisabledUntil r') = (DisabledAt r, DisabledUntil r))
      /\ (DisabledUntil r <> zeroTime ->
          (TrackSuccess t vendor model).1 = t)
      /\ (forall now, validNow now -> disabledNow now r = true ->
          (TrackSuccess t vendor model).1 = t)).
Proof.
  split; [|split].
  - unfold TrackSuccess. destruct (records t !! key vendor model); reflexivity.
  - intros Hnone. unfold TrackSuccess. now rewrite Hnone.
  - intros r Hr.
    split; [|split].
    + intros Hz. exists (resetCount r).
      rewrite TrackSuccess_records, Hr, lookup_insert_eq.
      apply IsZero_true in Hz. rewrite Hz. cbn. auto.
    + now apply TrackSuccess_marked.
    + intros now Hvalid Hdis.
      apply (TrackSuccess_marked _ _ _ r Hr).
      now apply (disabledNow_marked now).
Qed.

Lemma TrackSuccess_spec_witness :
  (TrackSuccess disabledTracker "openai" "gpt-4").1 = disabledTracker
  /\ (TrackSuccess (newTracker None) "openai" "gpt-4").1 = newTracker None.
Proof.
  pose proof (TrackSuccess_spec disabledTracker "openai" "gpt-4") as (_ & _ & H).
  pose proof (TrackSuccess_spec (newTracker None) "openai" "gpt-4") as (_ & H0 & _).
  split.
  - edestruct H as (_ & _ & Hdis).
    + vm_compute. reflexivity.
    + apply (Hdis (T0 + Second)).
      * vm_compute. discriminate.
      * vm_compute. reflexivity.
  - apply H0. reflexivity.
Defined.

(** *** The disable stamps while the window runs *)

(** C2, as stated, fails: one second after five failures disabled the
    pair, a sixth failure moves both stamps one second on. *)
Lemma failure_while_disabled_restamps :
  let now := T0 + Second in
  exists r r',
    records disabledTracker !! key "openai" "gpt-4" = Some r
    /\ disabledNow now r = true
    /\ records (TrackFailure disabledTracker "openai" "gpt-4" now).1
         !! key "openai" "gpt-4" = Some r'
    /\ DisabledAt r' <> DisabledAt r
    /\ DisabledUntil r' <> DisabledUntil r.
Proof.
  do 2 eexists.
  split; [vm_compute; reflexivity|].
  split; [vm_compute; reflexivity|].
  split; [vm_compute; reflexivity|].
  split; vm_compute; discriminate.
Qed.

(** An operation on another key leaves the record alone. *)
Lemma other_key_frame t o k k' :
  opKey o = Some k' -> k' <> k -> records (apply t o) !! k = records t !! k.
Proof.
  intros Ho Hne. destruct o as [v m now|v m|v m|now]; cbn in Ho |- *;
    try discriminate; injection Ho as <-.
  - now apply TrackFailure_lookup_ne.
  - rewrite TrackSuccess_records.
    destruct (records t !! key v m); [now apply lookup_insert_ne|reflexivity].
  - rewrite EnableModel_records.
    destruct (records t !! key v m); [now apply lookup_insert_ne|reflexivity].
Qed.

Lemma sweep_not_expired t now k r :
  records t !! k = Some r -> expired now r = false ->
  records (checkAndReenable t now) !! k = Some r.
Proof.
  intros Hr Hexp. rewrite checkAndReenable_lookup, Hr. cbn. now rewrite Hexp.
Qed.

Lemma disabledNow_not_expired now r : disabledNow now r = true -> expired now r = false.
Proof.
  unfold disabledNow, expired, Before, After.
  intros [_ Hlt%Z.ltb_lt]%andb_true_iff.
  apply andb_false_iff. right. apply Z.ltb_ge. lia.
Qed.

(** C2, amended.  While a pair is disabled ([now] before [disabledUntil]),
    a success, a sweep and every operation on another key leave its record
    as it is.  A further failure of the pair leaves the two stamps as they
    are only when its own disabling condition does not hold; when it holds
    (first failure still inside the counting window, count at or above the
    threshold) the failure writes [disabledAt := now] and
    [disabledUntil := now + disableDuration] again. *)
Theorem stamps_while_disabled t vendor model now r :
  records t !! key vendor model = Some r ->
  validNow now ->
  disabledNow now r = true ->
  let cfg := GetEffectiveConfig t vendor model in
  (TrackSuccess t vendor model).1 = t
  /\ records (checkAndReenable t now) !! key vendor model = Some r
  /\ (forall o k', opKey o = Some k' -> k' <> key vendor model ->
      records (apply t o) !! key vendor model = Some r)
  /\ exists r',
      records (TrackFailure t vendor model now).1 !! key vendor model = Some r'
      /\ if shouldDisable cfg now (countFailure true now r)
         then DisabledAt r' = now
              /\ DisabledUntil r' = Add now (seconds (DisableDurationSeconds cfg))
         else DisabledAt r' = DisabledAt r
              /\ DisabledUntil r' = DisabledUntil r.
Proof.
  intros Hr Hvalid Hdis cfg. repeat split.
  - apply (TrackSuccess_marked _ _ _ r Hr).
    now apply (disabledNow_marked now).
  - apply sweep_not_expired; [exact Hr|now apply disabledNow_not_expired].
  - intros o k' Ho Hne. rewrite <- Hr. now apply (other_key_frame t o _ k').
  - exists (failureStep cfg now true r). split.
    + rewrite TrackFailure_records, lookup_insert_eq, Hr. reflexivity.
    + unfold failureStep.
      destruct (shouldDisable cfg now (countFailure true now r)); cbn; auto.
Qed.

Lemma stamps_while_disabled_witness :
  (TrackSuccess disabledTracker "openai" "gpt-4").1 = disabledTracker
  /\ exists r',
      records (TrackFailure disabledTracker "openai" "gpt-4" (T0 + Second)).1
        !! key "openai" "gpt-4" = Some r'
      /\ DisabledAt r' = T0 + Second
      /\ DisabledUntil r' = T0 + 301 * Second.
Proof.
  edestruct (stamps_while_disabled disabledTracker "openai" "gpt-4" (T0 + Second))
    as (Hs & _ & _ & r' & Hr' & Hst).
  - vm_compute. reflexivity.
  - vm_compute. discriminate.
  - vm_compute. reflexivity.
  - split; [exact Hs|]. exists r'. split; [exact Hr'|].
    vm_compute in Hst. exact Hst.
Defined.

(** *** The sweep *)

Lemma sweep_expired t now k r :
  records t !! k = Some r -> expired now r = true ->
  records (checkAndReenable t now) !! k = Some (clearRecord r).
Proof.
  intros Hr Hexp. rewrite checkAndReenable_lookup, Hr. cbn. now rewrite Hexp.
Qed.

(** C4, as stated, fails at the instant of expiry.  Five failures at [T0]
    disable the pair until [T0 + 300 s].  At [now = T0 + 300 s] the window
    has expired ([now >= disabledUntil], and [IsDisabled] answers false),
    but the sweep compares with [After] and leaves the record untouched,
    while [EnableModel] clears it. *)
Lemma sweep_at_expiry_instant :
  let now := T0 + 300 * Second in
  exists r,
    records disabledTracker !! key "openai" "gpt-4" = Some r
    /\ DisabledAt r <> zeroTime
    /\ DisabledUntil r <= now
    /\ IsDisabled disabledTracker "openai" "gpt-4" now = (false, noError)
    /\ records (checkAndReenable disabledTracker now) !! key "openai" "gpt-4"
       = Some r
    /\ FailureCount r = 5
    /\ records (EnableModel disabledTracker "openai" "gpt-4").1
         !! key "openai" "gpt-4" = Some (clearRecord r)
    /\ clearRecord r <> r.
Proof.
  eexists. split; [vm_compute; reflexivity|].
  repeat split; try (vm_compute; reflexivity); vm_compute; discriminate.
Qed.

(** C4, amended.  A record whose [disabledAt] is set and whose
    [disabledUntil] lies strictly before [now] is cleared by one pass of
    the sweep: count 0 and the four stamps zero, which is the record
    [EnableModel] leaves.  Every other record, [disabledAt] unset or
    [now <= disabledUntil], is left as it is. *)
Theorem sweep_spec t vendor model now r :
  records t !! key vendor model = Some r ->
  (DisabledAt r <> zeroTime -> DisabledUntil r < now ->
   exists r',
     records (checkAndReenable t now) !! key vendor model = Some r'
     /\ records (EnableModel t vendor model).1 !! key vendor model = Some r'
     /\ FailureCount r' = 0
     /\ (FirstFailure r', LastFailure r') = (zeroTime, zeroTime)
     /\ (DisabledAt r', DisabledUntil r') = (zeroTime, zeroTime)
     /\ (Vendor r', Model r', EffectiveConfig r')
        = (Vendor r, Model r, EffectiveConfig r))
  /\ (DisabledAt r = zeroTime \/ now <= DisabledUntil r ->
      records (checkAndReenable t now) !! key vendor model = Some r).
Proof.
  intros Hr. split.
  - intros Hat Hnow. exists (clearRecord r). split; [|split].
    + apply sweep_expired; [exact Hr|].
      unfold expired, After. apply andb_true_iff. split.
      * apply negb_true_iff, IsZero_false, Hat.
      * now apply Z.ltb_lt.
    + now rewrite EnableModel_records, Hr, lookup_insert_eq.
    + cbn. auto.
  - intros Hcase. apply sweep_not_expired; [exact Hr|].
    unfold expired, After. apply andb_false_iff.
    destruct Hcase as [Hz|Hle].
    + left. apply negb_false_iff, IsZero_true, Hz.
    + right. apply Z.ltb_ge. lia.
Qed.

Lemma sweep_spec_witness :
  let now := T0 + 301 * Second in
  exists r',
    records (checkAndReenable disabledTracker now) !! key "openai" "gpt-4" = Some r'
    /\ FailureCount r' = 0
    /\ (DisabledAt r', DisabledUntil r') = (zeroTime, zeroTime).
Proof.
  cbn zeta.
  edestruct (sweep_spec disabledTracker "openai" "gpt-4" (T0 + 301 * Second))
    as (H & _).
  - vm_compute. reflexivity.
  - destruct H as (r' & Hr' & _ & Hc & _ & Hst & _).
    + vm_compute. discriminate.
    + vm_compute. reflexivity.
    + exists r'. auto.
Defined.

(** *** Manual enable *)

Lemma clearRecord_idem r : clearRecord (clearRecord r) = clearRecord r.
Proof. reflexivity. Qed.

(** C9.  [EnableModel] returns no error; after it the pair is not disabled
    at any time and its failure count is 0, whatever the state before (a
    disabled pair in particular); a second call changes nothing; and on a
    pair with no record the call changes nothing. *)
Theorem EnableModel_spec t vendor model :
  let t' := (EnableModel t vendor model).1 in
  (EnableModel t vendor model).2 = noError
  /\ (forall now, IsDisabled t' vendor model now = (false, noError))
  /\ GetFailureCount t' vendor model = (0, noError)
  /\ EnableModel t' vendor model = (t', noError)
  /\ (records t !! key vendor model = None ->
      EnableModel t vendor model = (t, noError)).
Proof.
  cbn zeta. unfold EnableModel at 1 2 3 5 6.
  unfold IsDisabled, GetFailureCount.
  destruct (records t !! key vendor model) as [r|] eqn:Hr; cbn.
  - rewrite lookup_insert_eq. repeat split; try discriminate.
    unfold EnableModel. cbn. rewrite lookup_insert_eq. f_equal.
    apply tracker_eq; cbn; [|reflexivity].
    apply insert_insert_eq.
  - rewrite Hr. repeat split.
    + unfold EnableModel. now rewrite Hr.
    + intros _. unfold EnableModel. now rewrite Hr.
Qed.

Lemma EnableModel_spec_witness :
  IsDisabled disabledTracker "openai" "gpt-4" (T0 + Second) = (true, noError)
  /\ IsDisabled (EnableModel disabledTracker "openai" "gpt-4").1
       "openai" "gpt-4" (T0 + Second) = (false, noError)
  /\ EnableModel (newTracker None) "openai" "gpt-4" = (newTracker None, noError).
Proof.
  split; [vm_compute; reflexivity|]. split.
  - apply (EnableModel_spec disabledTracker "openai" "gpt-4").
  - apply (EnableModel_spec (newTracker None) "openai" "gpt-4"). reflexivity.
Defined.

(** *** Invariants of reachable stores *)

Section Invariant.
Variable P : string -> FailureRecord -> Prop.
Hypothesis P_fresh : forall v m cfg, P (key v m) (freshRecord v m cfg).
Hypothesis P_failure :
  forall k cfg now b r, validNow now -> P k r -> P k (failureStep cfg now b r).
Hypothesis P_reset : forall k r, P k r -> P k (resetCount r).
Hypothesis P_clear : forall k r, P k r -> P k (clearRecord r).

(** A property of keys and records that holds of a fresh record under its
    key and that the three record updates keep is kept by every operation,
    so it holds of every entry of a reachable store. *)
Lemma apply_preserves t o :
  clockOk o ->
  (forall k r, records t !! k = Some r -> P k r) ->
  forall k r, records (apply t o) !! k = Some r -> P k r.
Proof.
  intros Hclock Hall k r.
  destruct o as [v m now|v m|v m|now]; cbn [apply clockOk] in Hclock |- *.
  - rewrite TrackFailure_records.
    destruct (decide (key v m = k)) as [<-|Hne].
    + rewrite lookup_insert_eq. intros [= <-]. cbn zeta.
      destruct (records t !! key v m) as [r0|] eqn:Hr0; eauto.
    + rewrite lookup_insert_ne by exact Hne. apply Hall.
  - rewrite TrackSuccess_records.
    destruct (records t !! key v m) as [r0|] eqn:Hr0; [|apply Hall].
    destruct (decide (key v m = k)) as [<-|Hne].
    + rewrite lookup_insert_eq. intros [= <-].
      destruct (IsZero (DisabledUntil r0)); eauto.
    + rewrite lookup_insert_ne by exact Hne. apply Hall.
  - rewrite EnableModel_records.
    destruct (records t !! key v m) as [r0|] eqn:Hr0; [|apply Hall].
    destruct (decide (key v m = k)) as [<-|Hne].
    + rewrite lookup_insert_eq. intros [= <-]. eauto.
    + rewrite lookup_insert_ne by exact Hne. apply Hall.
  - rewrite checkAndReenable_lookup.
    destruct (records t !! k) as [r0|] eqn:Hr0; cbn; [|discriminate].
    intros [= <-]. destruct (expired now r0); eauto.
Qed.

Lemma reachable_preserves cfg t :
  reachable cfg t -> forall k r, records t !! k = Some r -> P k r.
Proof.
  induction 1 as [|t o Hreach IH Hclock].
  - intros k r. cbn. rewrite lookup_empty. discriminate.
  - now apply apply_preserves.
Qed.

End Invariant.

Lemma reachable_trackFailures cfg t vendor model times :
  reachable cfg t -> Forall validNow times ->
  reachable cfg (trackFailures t vendor model times).
Proof.
  intros Hreach Hvalid. revert t Hreach.
  induction Hvalid as [|now rest Hnow _ IH]; intros t Hreach; cbn; [exact Hreach|].
  apply IH. exact (reachable_step cfg t (CallTrackFailure vendor model now) Hreach Hnow).
Qed.

Lemma T0_valid : validNow T0.
Proof. vm_compute. discriminate. Qed.

Lemma disabledTracker_reachable : reachable None disabledTracker.
Proof.
  apply reachable_trackFailures; [constructor|].
  repeat constructor; apply T0_valid.
Qed.

(** C8.  In every store reachable from the empty one by failures,
    successes, manual enables and sweeps (their clock readings being
    readings of a real clock), each record has [disabledAt] and
    [disabledUntil] both zero or both set. *)
Theorem stamps_paired cfg t :
  reachable cfg t ->
  forall k r, records t !! k = Some r -> pairedStamps r.
Proof.
  apply (reachable_preserves (fun _ r => pairedStamps r)).
  - intros v m c. left. split; reflexivity.
  - intros _ c now b r Hvalid Hr. unfold failureStep.
    destruct (shouldDisable c now (countFailure b now r)).
    + right. cbn. split.
      * pose proof (valid_pos _ Hvalid). unfold zeroTime. lia.
      * pose proof (Add_valid_pos now _ Hvalid
                      (seconds_range (DisableDurationSeconds c))).
        unfold zeroTime. lia.
    + destruct b; exact Hr.
  - intros _ r Hr. exact Hr.
  - intros _ r _. left. split; reflexivity.
Qed.

Lemma stamps_paired_witness :
  exists r,
    records disabledTracker !! key "openai" "gpt-4" = Some r /\ pairedStamps r.
Proof.
  eexists. split; [vm_compute; reflexivity|].
  apply (stamps_paired None disabledTracker disabledTracker_reachable
           (key "openai" "gpt-4")).
  vm_compute. reflexivity.
Defined.

(** Every record of a reachable store sits under the key of its own
    vendor and model. *)
Lemma reachable_keyed cfg t : reachable cfg t -> keyed t.
Proof.
  unfold keyed.
  apply (reachable_preserves (fun k r => key (Vendor r) (Model r) = k)).
  - reflexivity.
  - intros k c now b r _ Hr. unfold failureStep.
    destruct (shouldDisable c now (countFailure b now r)); destruct b; exact Hr.
  - intros k r Hr. exact Hr.
  - intros k r Hr. exact Hr.
Qed.

(** *** The list of disabled models *)

Lemma GetDisabledModels_elem t now untilNow d :
  d ∈ GetDisabledModels t now untilNow <->
  exists k r,
    records t !! k = Some r
    /\ disabledNow now r = true
    /\ d = {| DM_Vendor := Vendor r;
              DM_Model := Model r;
              DM_FailureCount := FailureCount r;
              DM_DisabledAt := DisabledAt r;
              DM_DisabledUntil := DisabledUntil r;
              DM_RemainingTime := Until (untilNow k) (DisabledUntil r);
              DM_FailureThreshold := FailureThreshold (EffectiveConfig r) |}.
Proof.
  unfold GetDisabledModels. rewrite list_elem_of_omap. split.
  - intros ([k r] & Hin & Hsome). apply elem_of_map_to_list in Hin.
    cbn in Hsome. destruct (disabledNow now r) eqn:Hdis; [|discriminate].
    injection Hsome as <-. eauto.
  - intros (k & r & Hr & Hdis & ->). exists (k, r).
    split; [now apply elem_of_map_to_list|]. cbn. now rewrite Hdis.
Qed.

Lemma IsDisabled_true t vendor model now :
  IsDisabled t vendor model now = (true, noError) <->
  exists r, records t !! key vendor model = Some r /\ disabledNow now r = true.
Proof.
  unfold IsDisabled. destruct (records t !! key vendor model) as [r|].
  - destruct (disabledNow now r) eqn:Hdis.
    + split; eauto.
    + split; [discriminate|]. intros (r' & [= <-] & H). congruence.
  - split; [discriminate|]. intros (r & H & _). discriminate.
Qed.

(** Every entry of the list names a pair that [IsDisabled] reports
    disabled, and carries stamps that satisfy the test. *)
Lemma listed_is_disabled t now untilNow d :
  keyed t ->
  d ∈ GetDisabledModels t now untilNow ->
  IsDisabled t (DM_Vendor d) (DM_Model d) now = (true, noError)
  /\ DM_DisabledAt d <> zeroTime
  /\ now < DM_DisabledUntil d.
Proof.
  intros Hkeyed (k & r & Hr & Hdis & ->)%GetDisabledModels_elem. cbn.
  split.
  - apply IsDisabled_true. exists r. now rewrite (Hkeyed _ _ Hr).
  - unfold disabledNow, Before in Hdis.
    apply andb_true_iff in Hdis as [Hat%negb_true_iff%IsZero_false Hlt%Z.ltb_lt].
    auto.
Qed.

(** Every pair that [IsDisabled] reports disabled has an entry in the
    list, under the vendor and model that share its key. *)
Lemma disabled_is_listed t vendor model now untilNow :
  keyed t ->
  IsDisabled t vendor model now = (true, noError) ->
  exists d,
    d ∈ GetDisabledModels t now untilNow
    /\ key (DM_Vendor d) (DM_Model d) = key vendor model.
Proof.
  intros Hkeyed (r & Hr & Hdis)%IsDisabled_true.
  eexists. split.
  - apply GetDisabledModels_elem. exists (key vendor model), r. eauto.
  - cbn. exact (Hkeyed _ _ Hr).
Qed.

(** X11.  With one clock reading for the whole call, the remaining time
    of an entry of the list is the time from [now] to its [disabledUntil],
    provided that difference fits a [time.Duration] ([Time.Sub] saturates
    otherwise). *)
Lemma listed_remaining t now d :
  d ∈ GetDisabledModels t now (fun _ => now) ->
  DM_DisabledUntil d - now <= maxDuration ->
  DM_RemainingTime d = DM_DisabledUntil d - now.
Proof.
  intros (k & r & Hr & Hdis & ->)%GetDisabledModels_elem. cbn.
  unfold disabledNow, Before in Hdis.
  apply andb_true_iff in Hdis as [_ Hlt%Z.ltb_lt].
  intros Hmax. unfold Until, Sub.
  replace (DisabledUntil r - now <? minDuration) with false
    by (symmetry; apply Z.ltb_ge; unfold minDuration; lia).
  replace (maxDuration <? DisabledUntil r - now) with false
    by (symmetry; apply Z.ltb_ge; lia).
  reflexivity.
Qed.

(** The key determines the pair when the vendor names have no colon. *)
Lemma splitKey_key vendor model :
  colonFree vendor = true -> splitKey (key vendor model) = (vendor, model).
Proof.
  unfold key.
  induction vendor as [|c rest IH]; cbn [colonFree splitKey String.append];
    [reflexivity|].
  intros [Hc%negb_true_iff Hrest]%andb_true_iff.
  change (String c rest +:+ ":" +:+ model)
    with (String c (rest +:+ ":" +:+ model)).
  cbn [splitKey]. rewrite Hc, (IH Hrest). reflexivity.
Qed.

Lemma key_inj vendor model vendor' model' :
  colonFree vendor = true -> colonFree vendor' = true ->
  key vendor model = key vendor' model' ->
  vendor = vendor' /\ model = model'.
Proof.
  intros Hv Hv' Hkey.
  pose proof (splitKey_key vendor model Hv) as Hs.
  rewrite Hkey, (splitKey_key vendor' model' Hv') in Hs.
  injection Hs as <- <-. auto.
Qed.

(** X10.  In a store whose records sit under their own keys and whose
    vendor names have no colon, the list holds exactly the pairs that
    [IsDisabled] reports disabled: a pair with a colon-free vendor is
    disabled if and only if the list has an entry with that vendor and
    model. *)
Lemma listing_exact_colonFree t vendor model now untilNow :
  keyed t ->
  (forall k r, records t !! k = Some r -> colonFree (Vendor r) = true) ->
  colonFree vendor = true ->
  IsDisabled t vendor model now = (true, noError) <->
  exists d,
    d ∈ GetDisabledModels t now untilNow
    /\ DM_Vendor d = vendor /\ DM_Model d = model.
Proof.
  intros Hkeyed Hfree Hvendor. split.
  - intros (r & Hr & Hdis)%IsDisabled_true.
    destruct (key_inj (Vendor r) (Model r) vendor model) as [Hv Hm];
      [now apply (Hfree _ _ Hr)|exact Hvendor|exact (Hkeyed _ _ Hr)|].
    eexists. split.
    + apply GetDisabledModels_elem. exists (key vendor model), r. eauto.
    + cbn. auto.
  - intros (d & Hd & <- & <-).
    now apply (listed_is_disabled t now untilNow d).
Qed.

(** C7 on two pairs that share a key.  Five failures of the pair
    ("a:b", "c") disable it.  The key "a:b:c" is also the key of the pair
    ("a", "b:c"), so [IsDisabled] reports that pair disabled too, while the
    list of disabled models has the single entry ("a:b", "c"). *)
Theorem disabled_list_misses_alias_pair :
  let now := T0 + Second in
  key "a" "b:c" = key "a:b" "c"
  /\ IsDisabled aliasTracker "a" "b:c" now = (true, noError)
  /\ (DM_Vendor <$> GetDisabledModels aliasTracker now (fun _ => now)) = ["a:b"%string]
  /\ (DM_Model <$> GetDisabledModels aliasTracker now (fun _ => now)) = ["c"%string]
  /\ forall d, d ∈ GetDisabledModels aliasTracker now (fun _ => now) ->
               (DM_Vendor d, DM_Model d) <> ("a"%string, "b:c"%string).
Proof.
  cbn zeta. split; [reflexivity|]. split; [vm_compute; reflexivity|].
  split; [vm_compute; reflexivity|]. split; [vm_compute; reflexivity|].
  intros d Hd.
  assert (Hv : DM_Vendor d ∈ DM_Vendor <$> GetDisabledModels aliasTracker
                 (T0 + Second) (fun _ => T0 + Second))
    by (apply list_elem_of_fmap; eauto).
  replace (DM_Vendor <$> _) with ["a:b"%string] in Hv
    by (vm_compute; reflexivity).
  apply list_elem_of_singleton in Hv. intros [= Hv' _]. congruence.
Qed.

End Tracker.

(** ** The effective-configuration resolver *)

Module Resolver.
Import config failure.

(** C5.  The resolver returns the block of the most specific level that is
    present (model, else vendor, else global), each zero field of that block
    replaced by the field of the hard default [{5, 60, 300}], and the hard
    default itself when no level is present; the broader levels do not
    enter the result; no field of the result is zero.  The resolver is a
    function of its three arguments alone, so resolving the same inputs
    again gives the same result. *)
Theorem resolver_spec (g v m : option AutoDisableConfig) :
  GetEffectiveAutoDisableConfig g v m = resolve_spec g v m
  /\ fullyPopulated (GetEffectiveAutoDisableConfig g v m)
  /\ (forall c g' v',
        GetEffectiveAutoDisableConfig g' v' (Some c) = fillFromDefault c)
  /\ (forall c g',
        GetEffectiveAutoDisableConfig g' (Some c) None = fillFromDefault c)
  /\ (forall c,
        GetEffectiveAutoDisableConfig (Some c) None None = fillFromDefault c)
  /\ GetEffectiveAutoDisableConfig None None None = hardDefault.
Proof.
  split; [|split].
  - destruct m, v, g; reflexivity.
  - unfold fullyPopulated, GetEffectiveAutoDisableConfig, GetEffectiveConfig.
    destruct m as [c|]; [|destruct v as [c|]; [|destruct g as [c|]]]; cbn;
      repeat split;
      try (match goal with |- (if ?x =? 0 then _ else _) <> 0 =>
             destruct (Z.eqb_spec x 0) end); lia.
  - repeat split; reflexivity.
Qed.

(** A model block that sets only the threshold and the duration takes its
    window from the hard default (60), not from the vendor block (30). *)
Example partial_override :
  GetEffectiveAutoDisableConfig
    (Some {| FailureThreshold := 5; TimeWindowSeconds := 60;
             DisableDurationSeconds := 300 |})
    (Some {| FailureThreshold := 3; TimeWindowSeconds := 30;
             DisableDurationSeconds := 600 |})
    (Some {| FailureThreshold := 2; TimeWindowSeconds := 0;
             DisableDurationSeconds := 900 |})
  = {| FailureThreshold := 2; TimeWindowSeconds := 60;
       DisableDurationSeconds := 900 |}.
Proof. reflexivity. Qed.

End Resolver.

(** ** The routing adapter *)

Module Routing.
Import GoTime config failure.

Lemma IsDisabled_noError t vendor model now :
  (IsDisabled t vendor model now).2 = noError.
Proof.
  unfold IsDisabled. destruct (records t !! key vendor model) as [r|];
    [destruct (disabledNow now r)|]; reflexivity.
Qed.

(** C6.  When the explicit flag is present and false, [IsEnabled] answers
    false whatever tracker it holds, one whose [IsDisabled] fails included:
    the tracker is not asked.  Otherwise, holding the failure tracker, it
    answers the negation of [IsDisabled].  So a pair switched off in the
    configuration and without any tracked failure is reported not
    enabled. *)
Theorem IsEnabled_spec (t : failureTracker) vendor model
    (explicitlyEnabled : option bool) now :
  (explicitlyEnabled = Some false ->
   forall (T : Type) (I : FailureTracker T) (ri : RoutingIntegration T),
     IsEnabled ri vendor model explicitlyEnabled now = (false, noError))
  /\ (explicitlyEnabled <> Some false ->
      IsEnabled (NewRoutingIntegration (Some t)) vendor model
        explicitlyEnabled now
      = (negb (IsDisabled t vendor model now).1, noError))
  /\ (records t !! key vendor model = None ->
      GetFailureCount t vendor model = (0, noError)
      /\ IsDisabled t vendor model now = (false, noError)
      /\ IsEnabled (NewRoutingIntegration (Some t)) vendor model
           (Some false) now = (false, noError)).
Proof.
  split; [|split].
  - intros -> T I ri. reflexivity.
  - intros Hflag. unfold IsEnabled, IsModelDisabled. cbn.
    pose proof (IsDisabled_noError t vendor model now) as Herr.
    destruct (IsDisabled t vendor model now) as [d e]. cbn in Herr. subst e.
    destruct explicitlyEnabled as [[|]|]; try reflexivity. congruence.
  - intros Hnone. unfold GetFailureCount, IsDisabled. rewrite Hnone. auto.
Qed.

Lemma IsEnabled_spec_witness :
  IsEnabled (NewRoutingIntegration (Some Broken)) "openai" "gpt-4"
    (Some false) T0 = (false, noError)
  /\ IsEnabled (NewRoutingIntegration (Some disabledTracker)) "openai" "gpt-4"
       (Some true) (T0 + Second) = (false, noError)
  /\ IsEnabled (NewRoutingIntegration (Some (newTracker None))) "openai" "gpt-4"
       (Some false) T0 = (false, noError).
Proof.
  split; [|split].
  - destruct (IsEnabled_spec (newTracker None) "openai" "gpt-4" (Some false) T0)
      as (H & _).
    apply H. reflexivity.
  - destruct (IsEnabled_spec disabledTracker "openai" "gpt-4" (Some true)
                (T0 + Second)) as (_ & H & _).
    rewrite H; [vm_compute; reflexivity|discriminate].
  - destruct (IsEnabled_spec (newTracker None) "openai" "gpt-4" (Some false) T0)
      as (_ & _ & H).
    apply H. reflexivity.
Defined.

End Routing.

(** ** Vendor names *)

Module VendorNames.
Import executor.

(** The only alias that renames is the one of "openai-compat". *)
Lemma alias_cases provider alias :
  ProviderAliases !! provider = Some alias ->
  alias = "openai-compatibility"%string \/ alias = provider.
Proof.
  unfold ProviderAliases. cbn [list_to_map foldr fst snd].
  repeat (rewrite lookup_insert_Some; intros [[<- <-]|[_ H]]; [auto|revert H]).
  rewrite lookup_empty. discriminate.
Qed.

Lemma canonical_not_aliased :
  ProviderAliases !! "openai-compatibility"%string = None.
Proof. vm_compute. reflexivity. Qed.

(** C10.  Normalising a normalised vendor name changes nothing, and a
    provider that the alias table does not list is its own vendor name. *)
Theorem GetVendorName_idempotent provider :
  GetVendorName (GetVendorName provider) = GetVendorName provider
  /\ (ProviderAliases !! provider = None -> GetVendorName provider = provider).
Proof.
  split.
  - unfold GetVendorName at 2 3.
    destruct (ProviderAliases !! provider) as [alias|] eqn:Halias.
    + destruct (alias_cases _ _ Halias) as [->| ->].
      * unfold GetVendorName. now rewrite canonical_not_aliased.
      * unfold GetVendorName. now rewrite Halias.
    + unfold GetVendorName. now rewrite Halias.
  - intros Hnone. unfold GetVendorName. now rewrite Hnone.
Qed.

Lemma GetVendorName_idempotent_witness :
  GetVendorName "my-vendor" = "my-vendor"%string
  /\ GetVendorName (GetVendorName "openai-compat") = "openai-compatibility"%string.
Proof.
  split.
  - apply (GetVendorName_idempotent "my-vendor"). vm_compute. reflexivity.
  - rewrite (proj1 (GetVendorName_idempotent "openai-compat")).
    vm_compute. reflexivity.
Defined.

End VendorNames.

(** ** The scenarios of the test suite *)

Module Tests.
Import GoTime config failure.

(** [TestFailureTracker_TrackFailure]: 1, 4 and 5 failures. *)
Example test_TrackFailure :
  let run n := trackFailures (newTracker None) "v" "m" (replicate n T0) in
  ((IsDisabled (run 1%nat) "v" "m" T0).1,
   (IsDisabled (run 4%nat) "v" "m" T0).1,
   (IsDisabled (run 5%nat) "v" "m" T0).1) = (false, false, true).
Proof. vm_compute. reflexivity. Qed.

(** [TestFailureTracker_TrackSuccess]: three failures, then a success. *)
Example test_TrackSuccess :
  let t := trackFailures (newTracker None) "openai" "gpt-4" [T0; T0; T0] in
  GetFailureCount t "openai" "gpt-4" = (3, noError)
  /\ GetFailureCount (TrackSuccess t "openai" "gpt-4").1 "openai" "gpt-4"
     = (0, noError).
Proof. split; vm_compute; reflexivity. Qed.

(** [TestFailureTracker_AutoReenable]: threshold 3, duration 2 s, a sweep
    every second. *)
Example test_AutoReenable :
  let cfg := {| FailureThreshold := 3; TimeWindowSeconds := 60;
                DisableDurationSeconds := 2 |} in
  let t := trackFailures (newTracker (Some cfg)) "claude" "claude-3-sonnet"
             [T0; T0; T0] in
  let t3 := checkAndReenable
              (checkAndReenable (checkAndReenable t (T0 + Second))
                 (T0 + 2 * Second))
              (T0 + 3 * Second) in
  IsDisabled t "claude" "claude-3-sonnet" T0 = (true, noError)
  /\ IsDisabled t3 "claude" "claude-3-sonnet" (T0 + 3 * Second) = (false, noError)
  /\ GetFailureCount t3 "claude" "claude-3-sonnet" = (0, noError).
Proof. repeat split; vm_compute; reflexivity. Qed.

(** [TestFailureTracker_GetDisabledModels]: two disabled pairs. *)
Example test_GetDisabledModels :
  let t := trackFailures (newTracker None) "openai" "gpt-4"
             [T0; T0; T0; T0; T0] in
  let t := trackFailures t "claude" "claude-3-opus" [T0; T0; T0; T0; T0] in
  length (GetDisabledModels t T0 (fun _ => T0)) = 2%nat.
Proof. vm_compute. reflexivity. Qed.

(** [TestMockFailureTracker]. *)
Example test_Mock :
  let m := (Mock.TrackFailure NewMockFailureTracker "vendor" "model" T0).1 in
  let m1 := Mock.SetDisabled m "vendor" "model" true in
  let m2 := (Mock.EnableModel m1 "vendor" "model").1 in
  ((Mock.IsDisabled m "vendor" "model" T0).1,
   (Mock.IsDisabled m1 "vendor" "model" T0).1,
   (Mock.IsDisabled m2 "vendor" "model" T0).1) = (false, true, false).
Proof. vm_compute. reflexivity. Qed.

(** [TestAutoDisableConfig_GetEffectiveConfig]. *)
Example test_GetEffectiveConfig :
  FailureThreshold (config.GetEffectiveConfig None) = 5
  /\ config.GetEffectiveConfig
       (Some {| FailureThreshold := 0; TimeWindowSeconds := 0;
                DisableDurationSeconds := 0 |}) = hardDefault
  /\ FailureThreshold
       (config.GetEffectiveConfig
          (Some {| FailureThreshold := 10; TimeWindowSeconds := 120;
                   DisableDurationSeconds := 600 |})) = 10.
Proof. repeat split; reflexivity. Qed.

End Tests.

(** ** Further properties of the tracker *)

Module TrackerMore.
Import GoTime config failure TimeFacts TrackerFacts Tracker.

(** *** Keys *)

Lemma splitKey_colonFree k : colonFree k = true -> splitKey k = (k, EmptyString).
Proof.
  induction k as [|c rest IH]; cbn [colonFree splitKey]; [reflexivity|].
  intros [Hc%negb_true_iff Hrest]%andb_true_iff.
  rewrite Hc, (IH Hrest). reflexivity.
Qed.

Lemma splitKey_colon k :
  colonFree k = false ->
  key (splitKey k).1 (splitKey k).2 = k /\ colonFree (splitKey k).1 = true.
Proof.
  unfold key. induction k as [|c rest IH]; cbn [colonFree splitKey];
    [discriminate|].
  destruct (Ascii.eqb c ":") eqn:Hc; cbn [negb andb fst snd].
  - intros _. apply Ascii.eqb_eq in Hc. subst c. split; reflexivity.
  - intros Hrest. destruct (IH Hrest) as [Hk Hfree]. split.
    + change (String c (splitKey rest).1 +:+ ":" +:+ (splitKey rest).2)
        with (String c ((splitKey rest).1 +:+ ":" +:+ (splitKey rest).2)).
      now rewrite Hk.
    + cbn [colonFree]. now rewrite Hc, Hfree.
Qed.

Lemma key_has_colon vendor model : colonFree (key vendor model) = false.
Proof.
  unfold key. induction vendor as [|c rest IH]; [reflexivity|].
  change (String c rest +:+ ":" +:+ model)
    with (String c (rest +:+ ":" +:+ model)).
  cbn [colonFree]. rewrite IH. apply andb_false_r.
Qed.

(** X1.  [splitKey] undoes [key] when the vendor has no colon; [key] undoes
    [splitKey] on every string that has a colon, the first part never
    holding one; and a string without a colon is split into itself and the
    empty string. *)
Theorem splitKey_roundtrip :
  (forall vendor model,
     colonFree vendor = true -> splitKey (key vendor model) = (vendor, model))
  /\ (forall k,
        colonFree k = false ->
        key (splitKey k).1 (splitKey k).2 = k
        /\ colonFree (splitKey k).1 = true)
  /\ (forall k, colonFree k = true -> splitKey k = (k, EmptyString)).
Proof.
  split; [exact splitKey_key|]. split; [exact splitKey_colon|].
  exact splitKey_colonFree.
Qed.

Lemma splitKey_roundtrip_witness :
  splitKey (key "openai" "gpt-4:latest") = ("openai"%string, "gpt-4:latest"%string)
  /\ key (splitKey "a:b:c").1 (splitKey "a:b:c").2 = "a:b:c"%string
  /\ splitKey "gpt-4" = ("gpt-4"%string, EmptyString).
Proof.
  destruct splitKey_roundtrip as (H1 & H2 & H3). split; [|split].
  - apply H1. reflexivity.
  - apply H2. reflexivity.
  - apply H3. reflexivity.
Defined.

(** *** Counting *)

Lemma failureStep_count cfg now b r :
  FailureCount (failureStep cfg now b r)
  = if b then wrap32 (FailureCount r + 1) else 1.
Proof.
  unfold failureStep.
  destruct (shouldDisable cfg now (countFailure b now r)); destruct b; reflexivity.
Qed.

Lemma count_from_record t v m times :
  forall r,
    records t !! key v m = Some r ->
    - 2 ^ 31 <= FailureCount r ->
    FailureCount r + Z.of_nat (length times) <= 2 ^ 31 - 1 ->
    GetFailureCount (trackFailures t v m times) v m
    = (FailureCount r + Z.of_nat (length times), noError).
Proof.
  revert t. induction times as [|now rest IH]; intros t r Hr Hlo Hhi.
  - cbn. unfold GetFailureCount. rewrite Hr, Z.add_0_r. reflexivity.
  - cbn [trackFailures]. cbn [length] in Hhi.
    set (r1 := failureStep (GetEffectiveConfig t v m) now true r).
    assert (Hr1 : records (TrackFailure t v m now).1 !! key v m = Some r1).
    { rewrite TrackFailure_records, lookup_insert_eq. cbn zeta.
      now rewrite Hr. }
    assert (Hc1 : FailureCount r1 = FailureCount r + 1).
    { unfold r1. rewrite failureStep_count. apply wrap32_small. lia. }
    rewrite (IH _ r1 Hr1) by lia.
    rewrite Hc1. f_equal. cbn [length]. lia.
Qed.

(** X2.  From a store with no record for the pair, the failure count after
    any number of failures (up to the largest [int32]) is that number: the
    count goes on past the threshold and is not cleared when the pair is
    disabled. *)
Theorem failure_count_counts t vendor model (times : list Z) :
  records t !! key vendor model = None ->
  Z.of_nat (length times) <= 2 ^ 31 - 1 ->
  GetFailureCount (trackFailures t vendor model times) vendor model
  = (Z.of_nat (length times), noError).
Proof.
  intros Hnone Hlen. destruct times as [|now rest].
  - cbn. unfold GetFailureCount. now rewrite Hnone.
  - cbn [trackFailures]. cbn [length] in Hlen.
    set (r1 := failureStep (GetEffectiveConfig t vendor model) now false
                 (freshRecord vendor model (GetEffectiveConfig t vendor model))).
    assert (Hr1 : records (TrackFailure t vendor model now).1 !! key vendor model
                  = Some r1).
    { rewrite TrackFailure_records, lookup_insert_eq. cbn zeta.
      now rewrite Hnone. }
    assert (Hc1 : FailureCount r1 = 1) by apply failureStep_count.
    rewrite (count_from_record _ _ _ rest r1 Hr1) by lia.
    rewrite Hc1. f_equal. cbn [length]. lia.
Qed.

Lemma failure_count_counts_witness :
  GetFailureCount
    (trackFailures (newTracker None) "openai" "gpt-4"
       [T0; T0; T0; T0; T0; T0; T0]) "openai" "gpt-4" = (7, noError).
Proof.
  apply (failure_count_counts (newTracker None) "openai" "gpt-4"
           [T0; T0; T0; T0; T0; T0; T0]).
  - reflexivity.
  - vm_compute. discriminate.
Defined.

(** *** Failures that cannot disable *)

(** The window start of a real clock reading is after the zero time,
    whatever the configured window. *)
Lemma shouldDisable_unset cfg now r :
  validNow now -> FirstFailure r = zeroTime -> shouldDisable cfg now r = false.
Proof.
  intros Hvalid Hfirst. unfold shouldDisable, After. rewrite Hfirst.
  pose proof (Add_valid_pos now _ Hvalid
                (wrap64_range (wrap64 (- wrap64 (TimeWindowSeconds cfg)) * Second)))
    as Hpos.
  fold (negSeconds (TimeWindowSeconds cfg)) in Hpos.
  replace (Add now (negSeconds (TimeWindowSeconds cfg)) <? zeroTime) with false
    by (symmetry; apply Z.ltb_ge; unfold zeroTime; lia).
  reflexivity.
Qed.

Lemma shouldDisable_stale cfg now r :
  0 <= TimeWindowSeconds cfg * Second <= maxDuration ->
  TimeWindowSeconds cfg * Second <= now - FirstFailure r ->
  shouldDisable cfg now r = false.
Proof.
  intros Hw Hstale. rewrite shouldDisable_sane by exact Hw.
  replace (now - FirstFailure r <? TimeWindowSeconds cfg * Second) with false
    by (symmetry; apply Z.ltb_ge; lia).
  reflexivity.
Qed.

(** Failures on an existing record, none of which meets the disabling
    condition, leave the first-failure stamp and the disable stamps. *)
Lemma failures_without_disable t v m times :
  forall r,
    records t !! key v m = Some r ->
    Forall (fun now =>
              forall r', FirstFailure r' = FirstFailure r ->
                         shouldDisable (GetEffectiveConfig t v m) now r' = false)
           times ->
    exists r',
      records (trackFailures t v m times) !! key v m = Some r'
      /\ FirstFailure r' = FirstFailure r
      /\ DisabledAt r' = DisabledAt r
      /\ DisabledUntil r' = DisabledUntil r.
Proof.
  revert t. induction times as [|now rest IH]; intros t r Hr Hall.
  - exists r. auto.
  - cbn [trackFailures]. apply Forall_cons in Hall as [Hnow Hrest].
    set (r1 := countFailure true now r).
    assert (Hr1 : records (TrackFailure t v m now).1 !! key v m = Some r1).
    { rewrite TrackFailure_records, lookup_insert_eq. cbn zeta.
      rewrite Hr. unfold failureStep. fold r1.
      now rewrite (Hnow r1 eq_refl). }
    destruct (IH _ r1 Hr1) as (r' & Hr' & Hf & Hat & Hun).
    { rewrite TrackFailure_effective. exact Hrest. }
    exists r'. auto.
Qed.

Lemma IsDisabled_stamps t t' v m now r r' :
  records t !! key v m = Some r -> records t' !! key v m = Some r' ->
  DisabledAt r' = DisabledAt r -> DisabledUntil r' = DisabledUntil r ->
  IsDisabled t' v m now = IsDisabled t v m now.
Proof.
  intros Hr Hr' Hat Hun. unfold IsDisabled, disabledNow.
  now rewrite Hr, Hr', Hat, Hun.
Qed.

(** X3.  Once the counters of a pair have been cleared with its record
    kept (by [EnableModel], by a success on a record that is not marked
    disabled, or by the sweep of an expired record), no number of later
    failures disables the pair again, under any configuration:
    [TrackFailure] writes [firstFailure] only when it creates the record,
    and the zero time is never inside the counting window. *)
Theorem cleared_pair_never_disabled t vendor model (times : list Z) (now : Z) r :
  records t !! key vendor model = Some r ->
  Forall validNow times ->
  IsDisabled (trackFailures (EnableModel t vendor model).1 vendor model times)
    vendor model now = (false, noError)
  /\ (DisabledAt r = zeroTime -> DisabledUntil r = zeroTime ->
      IsDisabled (trackFailures (TrackSuccess t vendor model).1 vendor model times)
        vendor model now = (false, noError))
  /\ (forall sweepAt, expired sweepAt r = true ->
      IsDisabled (trackFailures (checkAndReenable t sweepAt) vendor model times)
        vendor model now = (false, noError)).
Proof.
  intros Hr Hvalid.
  assert (Hgen : forall t0 r0,
    records t0 !! key vendor model = Some r0 ->
    FirstFailure r0 = zeroTime -> DisabledAt r0 = zeroTime ->
    IsDisabled (trackFailures t0 vendor model times) vendor model now
    = (false, noError)).
  { intros t0 r0 Hr0 Hfirst Hat.
    destruct (failures_without_disable t0 vendor model times r0 Hr0)
      as (r' & Hr' & _ & Hat' & _).
    - apply Forall_impl with (P := validNow); [exact Hvalid|].
      intros x Hx r1 Hr1. apply shouldDisable_unset; [exact Hx|congruence].
    - unfold IsDisabled, disabledNow. rewrite Hr', Hat', Hat. reflexivity. }
  split; [|split].
  - apply (Hgen _ (clearRecord r)); [|reflexivity..].
    now rewrite EnableModel_records, Hr, lookup_insert_eq.
  - intros Hat Hun. apply (Hgen _ (resetCount r)); [|reflexivity|exact Hat].
    rewrite TrackSuccess_records, Hr, lookup_insert_eq.
    apply IsZero_true in Hun. now rewrite Hun.
  - intros sweepAt Hexp. apply (Hgen _ (clearRecord r)); [|reflexivity..].
    rewrite checkAndReenable_lookup, Hr. cbn. now rewrite Hexp.
Qed.

Lemma cleared_pair_never_disabled_witness :
  IsDisabled
    (trackFailures (EnableModel disabledTracker "openai" "gpt-4").1
       "openai" "gpt-4" [T0; T0; T0; T0; T0; T0])
    "openai" "gpt-4" T0 = (false, noError).
Proof.
  assert (Hr : exists r, records disabledTracker !! key "openai" "gpt-4" = Some r)
    by (eexists; vm_compute; reflexivity).
  destruct Hr as [r Hr].
  assert (Hvalid : Forall validNow [T0; T0; T0; T0; T0; T0])
    by (repeat constructor; apply T0_valid).
  exact (proj1 (cleared_pair_never_disabled disabledTracker "openai" "gpt-4"
                  [T0; T0; T0; T0; T0; T0] T0 r Hr Hvalid)).
Defined.

(** X4.  Failures that arrive when the counting window of the first
    failure has passed ([now - firstFailure >= window]) never change the
    disabled state of the pair, however many they are: the window is not
    restarted. *)
Theorem stale_failures_ignored t vendor model (times : list Z) r :
  let cfg := GetEffectiveConfig t vendor model in
  records t !! key vendor model = Some r ->
  0 <= TimeWindowSeconds cfg * Second <= maxDuration ->
  Forall (fun now => TimeWindowSeconds cfg * Second <= now - FirstFailure r) times ->
  forall now,
    IsDisabled (trackFailures t vendor model times) vendor model now
    = IsDisabled t vendor model now.
Proof.
  intros cfg Hr Hw Hstale now.
  destruct (failures_without_disable t vendor model times r Hr)
    as (r' & Hr' & _ & Hat & Hun).
  - apply Forall_impl with (1 := Hstale).
    intros x Hx r1 Hr1. apply shouldDisable_stale; [exact Hw|].
    rewrite Hr1. exact Hx.
  - now apply (IsDisabled_stamps t _ vendor model now r r').
Qed.

Lemma stale_failures_ignored_witness :
  let t := (TrackFailure (newTracker None) "openai" "gpt-4" T0).1 in
  let late := T0 + 60 * Second in
  IsDisabled (trackFailures t "openai" "gpt-4" [late; late; late; late; late])
    "openai" "gpt-4" late = (false, noError).
Proof.
  cbn zeta.
  set (t := (TrackFailure (newTracker None) "openai" "gpt-4" T0).1).
  set (late := T0 + 60 * Second).
  assert (Hr : exists r, records t !! key "openai" "gpt-4" = Some r
                         /\ FirstFailure r = T0)
    by (eexists; split; vm_compute; reflexivity).
  destruct Hr as (r & Hr & Hfirst).
  rewrite (stale_failures_ignored t "openai" "gpt-4"
             [late; late; late; late; late] r Hr).
  - vm_compute. reflexivity.
  - vm_compute. split; discriminate.
  - rewrite Hfirst. repeat constructor; vm_compute; discriminate.
Defined.

(** *** Records of reachable stores *)

Lemma reachable_config cfg t : reachable cfg t -> globalConfig t = cfg.
Proof.
  induction 1 as [|t o _ IH _]; [reflexivity|].
  now rewrite apply_config.
Qed.

Lemma GetEffectiveConfig_ext t t' v m v' m' :
  globalConfig t = globalConfig t' ->
  GetEffectiveConfig t v m = GetEffectiveConfig t' v' m'.
Proof. unfold GetEffectiveConfig. now intros ->. Qed.

(** The disable window of a record under configuration [eff]. *)
Lemma failureStep_window eff now b r :
  (DisabledAt r <> zeroTime ->
   DisabledUntil r = Add (DisabledAt r) (seconds (DisableDurationSeconds eff))) ->
  DisabledAt (failureStep eff now b r) <> zeroTime ->
  DisabledUntil (failureStep eff now b r)
  = Add (DisabledAt (failureStep eff now b r))
        (seconds (DisableDurationSeconds eff)).
Proof.
  unfold failureStep.
  destruct (shouldDisable eff now (countFailure b now r)); [reflexivity|].
  destruct b; exact (fun H => H).
Qed.

(** X5.  In every store reachable from the empty one, each record sits
    under the key of the vendor and model it names, carries the effective
    configuration of the tracker, and, when it is marked disabled, has
    [disabledUntil = disabledAt + disableDuration] for that
    configuration. *)
Theorem reachable_record_shape cfg t k r :
  reachable cfg t ->
  records t !! k = Some r ->
  let eff := GetEffectiveConfig t (Vendor r) (Model r) in
  key (Vendor r) (Model r) = k
  /\ EffectiveConfig r = eff
  /\ (DisabledAt r <> zeroTime ->
      DisabledUntil r = Add (DisabledAt r) (seconds (DisableDurationSeconds eff))).
Proof.
  intros Hreach Hr eff. split; [exact (reachable_keyed cfg t Hreach k r Hr)|].
  assert (Heff : forall t0 v m, reachable cfg t0 ->
                                GetEffectiveConfig t0 v m = eff).
  { intros t0 v m H0. apply GetEffectiveConfig_ext.
    now rewrite (reachable_config _ _ H0), (reachable_config _ _ Hreach). }
  clearbody eff. revert k r Hr.
  induction Hreach as [|t o Hreach IH Hclock]; intros k r.
  - cbn. rewrite lookup_empty. discriminate.
  - assert (Ht : forall v m, GetEffectiveConfig t v m = eff)
      by (intros v m; now apply Heff).
    destruct o as [v m now|v m|v m|now]; cbn [apply].
    + rewrite TrackFailure_records, Ht.
      destruct (decide (key v m = k)) as [<-|Hne].
      * rewrite lookup_insert_eq. intros [= <-]. cbn zeta.
        destruct (records t !! key v m) as [r0|] eqn:Hr0.
        -- destruct (IH _ _ Hr0) as [Hc Hw]. split.
           ++ unfold failureStep.
              destruct (shouldDisable _ _ _); exact Hc.
           ++ now apply failureStep_window.
        -- split.
           ++ unfold failureStep. destruct (shouldDisable _ _ _); reflexivity.
           ++ apply failureStep_window. intros H. now contradict H.
      * rewrite lookup_insert_ne by exact Hne. apply IH.
    + rewrite TrackSuccess_records.
      destruct (records t !! key v m) as [r0|] eqn:Hr0; [|apply IH].
      destruct (decide (key v m = k)) as [<-|Hne].
      * rewrite lookup_insert_eq. intros [= <-]. specialize (IH _ _ Hr0).
        destruct (IsZero (DisabledUntil r0)); exact IH.
      * rewrite lookup_insert_ne by exact Hne. apply IH.
    + rewrite EnableModel_records.
      destruct (records t !! key v m) as [r0|] eqn:Hr0; [|apply IH].
      destruct (decide (key v m = k)) as [<-|Hne].
      * rewrite lookup_insert_eq. intros [= <-].
        destruct (IH _ _ Hr0) as [Hc _]. split; [exact Hc|].
        intros H. now contradict H.
      * rewrite lookup_insert_ne by exact Hne. apply IH.
    + rewrite checkAndReenable_lookup.
      destruct (records t !! k) as [r0|] eqn:Hr0; cbn; [|discriminate].
      intros [= <-]. destruct (IH _ _ Hr0) as [Hc Hw].
      destruct (expired now r0); [|auto].
      split; [exact Hc|]. intros H. now contradict H.
Qed.

Lemma reachable_record_shape_witness :
  exists r,
    records disabledTracker !! key "openai" "gpt-4" = Some r
    /\ EffectiveConfig r = hardDefault
    /\ DisabledUntil r = DisabledAt r + 300 * Second.
Proof.
  assert (Hr : exists r, records disabledTracker !! key "openai" "gpt-4" = Some r
                         /\ DisabledAt r = T0)
    by (eexists; split; vm_compute; reflexivity).
  destruct Hr as (r & Hr & Hat). exists r.
  destruct (reachable_record_shape None disabledTracker _ r
              disabledTracker_reachable Hr) as (_ & Hc & Hw).
  split; [exact Hr|]. split; [exact Hc|].
  rewrite Hw; [reflexivity|]. rewrite Hat. vm_compute. discriminate.
Defined.

(** X6.  No operation deletes a record or changes the vendor, the model or
    the configuration snapshot it was created with: after any run, a
    record that was in the store is still there with the same three
    fields. *)
Theorem records_persist t (ops : list op) k r :
  records t !! k = Some r ->
  exists r',
    records (run t ops) !! k = Some r'
    /\ Vendor r' = Vendor r
    /\ Model r' = Model r
    /\ EffectiveConfig r' = EffectiveConfig r.
Proof.
  revert t r. induction ops as [|o ops IH]; intros t r Hr.
  - exists r. auto.
  - assert (Hstep : exists r1,
              records (apply t o) !! k = Some r1
              /\ Vendor r1 = Vendor r /\ Model r1 = Model r
              /\ EffectiveConfig r1 = EffectiveConfig r).
    { destruct o as [v m now|v m|v m|now]; cbn [apply].
      - rewrite TrackFailure_records.
        destruct (decide (key v m = k)) as [<-|Hne].
        + rewrite lookup_insert_eq, Hr. cbn zeta. eexists. split; [reflexivity|].
          unfold failureStep. destruct (shouldDisable _ _ _); auto.
        + rewrite lookup_insert_ne by exact Hne. eauto.
      - rewrite TrackSuccess_records.
        destruct (records t !! key v m) as [r0|] eqn:Hr0; [|eauto].
        destruct (decide (key v m = k)) as [<-|Hne].
        + rewrite lookup_insert_eq. rewrite Hr in Hr0. injection Hr0 as <-.
          eexists. split; [reflexivity|].
          destruct (IsZero (DisabledUntil r)); auto.
        + rewrite lookup_insert_ne by exact Hne. eauto.
      - rewrite EnableModel_records.
        destruct (records t !! key v m) as [r0|] eqn:Hr0; [|eauto].
        destruct (decide (key v m = k)) as [<-|Hne].
        + rewrite lookup_insert_eq. rewrite Hr in Hr0. injection Hr0 as <-.
          eexists. split; [reflexivity|]. auto.
        + rewrite lookup_insert_ne by exact Hne. eauto.
      - rewrite checkAndReenable_lookup, Hr. cbn.
        eexists. split; [reflexivity|]. destruct (expired now r); auto. }
    destruct Hstep as (r1 & Hr1 & Hv & Hm & Hc).
    destruct (IH _ _ Hr1) as (r' & Hr' & Hv' & Hm' & Hc').
    exists r'. cbn. split; [exact Hr'|]. split; [|split]; congruence.
Qed.

Lemma records_persist_witness :
  exists r',
    records (run disabledTracker
               [CallEnableModel "openai" "gpt-4"; Sweep (T0 + 400 * Second);
                CallTrackSuccess "openai" "gpt-4"])
      !! key "openai" "gpt-4" = Some r'
    /\ Vendor r' = "openai"%string.
Proof.
  assert (Hr : exists r, records disabledTracker !! key "openai" "gpt-4" = Some r
                         /\ Vendor r = "openai"%string)
    by (eexists; split; vm_compute; reflexivity).
  destruct Hr as (r & Hr & Hv).
  destruct (records_persist disabledTracker
              [CallEnableModel "openai" "gpt-4"; Sweep (T0 + 400 * Second);
               CallTrackSuccess "openai" "gpt-4"] _ r Hr)
    as (r' & Hr' & Hv' & _).
  exists r'. split; [exact Hr'|congruence].
Defined.

(** *** The sweep, continued *)

Lemma expired_mono now1 now2 r :
  now1 <= now2 -> expired now1 r = true -> expired now2 r = true.
Proof.
  unfold expired, After. intros Hle [Hat Hlt%Z.ltb_lt]%andb_true_iff.
  apply andb_true_iff. split; [exact Hat|]. apply Z.ltb_lt. lia.
Qed.

Lemma expired_clear now r : expired now (clearRecord r) = false.
Proof. reflexivity. Qed.

(** X7.  Two sweeps in a row do what the later one does alone: a sweep at
    [now1] followed by a sweep at [now2 >= now1] leaves the store that one
    sweep at [now2] leaves.  In particular a sweep is idempotent. *)
Theorem sweep_twice t now1 now2 :
  now1 <= now2 ->
  checkAndReenable (checkAndReenable t now1) now2 = checkAndReenable t now2.
Proof.
  intros Hle. apply tracker_eq; [|reflexivity].
  apply map_eq. intros k.
  rewrite !checkAndReenable_lookup.
  destruct (records t !! k) as [r|]; cbn; [|reflexivity]. f_equal.
  destruct (expired now1 r) eqn:H1.
  - rewrite expired_clear. now rewrite (expired_mono now1 now2 r Hle H1).
  - reflexivity.
Qed.

Lemma sweep_twice_witness :
  checkAndReenable (checkAndReenable disabledTracker (T0 + 301 * Second))
    (T0 + 311 * Second)
  = checkAndReenable disabledTracker (T0 + 311 * Second).
Proof.
  apply (sweep_twice disabledTracker (T0 + 301 * Second) (T0 + 311 * Second)).
  vm_compute. discriminate.
Defined.

(** X8.  A sweep is not seen by [IsDisabled]: queried at the time of the
    sweep or later, every pair gets the answer it would have got without
    the sweep. *)
Theorem sweep_unobserved t sweepAt vendor model now :
  sweepAt <= now ->
  IsDisabled (checkAndReenable t sweepAt) vendor model now
  = IsDisabled t vendor model now.
Proof.
  intros Hle. unfold IsDisabled. rewrite checkAndReenable_lookup.
  destruct (records t !! key vendor model) as [r|]; cbn; [|reflexivity].
  destruct (expired sweepAt r) eqn:Hexp; [|reflexivity].
  unfold disabledNow at 1. cbn.
  apply (expired_mono _ now) in Hexp; [|exact Hle].
  unfold expired, After in Hexp. apply andb_true_iff in Hexp as [_ Hlt%Z.ltb_lt].
  unfold disabledNow, Before.
  replace (now <? DisabledUntil r) with false
    by (symmetry; apply Z.ltb_ge; lia).
  now rewrite andb_false_r.
Qed.

Lemma sweep_unobserved_witness :
  IsDisabled (checkAndReenable disabledTracker (T0 + 301 * Second))
    "openai" "gpt-4" (T0 + 301 * Second) = (false, noError).
Proof.
  rewrite (sweep_unobserved disabledTracker (T0 + 301 * Second)
             "openai" "gpt-4" (T0 + 301 * Second)).
  - vm_compute. reflexivity.
  - vm_compute. discriminate.
Defined.

(** *** Pairs are tracked apart *)

(** X9.  An operation on one pair changes neither the disabled state nor
    the failure count of a pair with another key; two different pairs
    whose vendor names have no colon have different keys. *)
Theorem pairs_independent t o vendor model vendor' model' now :
  opKey o = Some (key vendor model) ->
  key vendor' model' <> key vendor model
  \/ (colonFree vendor = true /\ colonFree vendor' = true
      /\ (vendor', model') <> (vendor, model)) ->
  IsDisabled (apply t o) vendor' model' now = IsDisabled t vendor' model' now
  /\ GetFailureCount (apply t o) vendor' model'
     = GetFailureCount t vendor' model'.
Proof.
  intros Ho Hdiff.
  assert (Hne : key vendor model <> key vendor' model').
  { destruct Hdiff as [Hne|(Hv & Hv' & Hpair)]; [congruence|].
    intros Hkey. apply Hpair.
    destruct (key_inj vendor model vendor' model' Hv Hv' Hkey) as [-> ->].
    reflexivity. }
  unfold IsDisabled, GetFailureCount.
  now rewrite (other_key_frame t o (key vendor' model') (key vendor model) Ho Hne).
Qed.

Lemma pairs_independent_witness :
  IsDisabled (TrackFailure disabledTracker "claude" "claude-3-opus" T0).1
    "openai" "gpt-4" T0 = (true, noError).
Proof.
  destruct (pairs_independent disabledTracker
              (CallTrackFailure "claude" "claude-3-opus" T0)
              "claude" "claude-3-opus" "openai" "gpt-4" T0) as [H _].
  - reflexivity.
  - right. repeat split; [reflexivity..|discriminate].
  - cbn [apply] in H. rewrite H. vm_compute. reflexivity.
Defined.

(** *** The list of disabled models, for vendor names without a colon *)

Lemma disabledTracker_records :
  exists r,
    records disabledTracker = {[ key "openai" "gpt-4" := r ]}
    /\ Vendor r = "openai"%string.
Proof. eexists. split; vm_compute; reflexivity. Qed.

Lemma listing_exact_colonFree_witness :
  exists d,
    d ∈ GetDisabledModels disabledTracker T0 (fun _ => T0)
    /\ DM_Vendor d = "openai"%string /\ DM_Model d = "gpt-4"%string.
Proof.
  apply (listing_exact_colonFree disabledTracker "openai" "gpt-4" T0).
  - exact (reachable_keyed None _ disabledTracker_reachable).
  - destruct disabledTracker_records as (r0 & Hrec & Hv).
    intros k r. rewrite Hrec. intros [_ <-]%lookup_singleton_Some.
    rewrite Hv. reflexivity.
  - reflexivity.
  - vm_compute. reflexivity.
Defined.

Lemma listed_remaining_witness :
  exists d,
    d ∈ GetDisabledModels disabledTracker T0 (fun _ => T0)
    /\ DM_RemainingTime d = 300 * Second.
Proof.
  assert (Hl : exists d,
            GetDisabledModels disabledTracker T0 (fun _ => T0) = [d]
            /\ DM_DisabledUntil d = T0 + 300 * Second)
    by (eexists; split; vm_compute; reflexivity).
  destruct Hl as (d & Hl & Hun).
  assert (Hin : d ∈ GetDisabledModels disabledTracker T0 (fun _ => T0))
    by (rewrite Hl; now apply list_elem_of_singleton).
  exists d. split; [exact Hin|].
  rewrite (listed_remaining disabledTracker T0 d Hin).
  - rewrite Hun. vm_compute. reflexivity.
  - rewrite Hun. vm_compute. discriminate.
Defined.

(** *** More failures only prolong *)

(** X23.  A failure never moves the disable stamps back: for a record that
    is unmarked, or was disabled at or before [now] for the configured
    duration, [disabledAt] and [disabledUntil] after [TrackFailure] at
    [now] are the old ones or later ones. *)
Theorem failure_never_shortens t vendor model now r :
  let cfg := GetEffectiveConfig t vendor model in
  records t !! key vendor model = Some r ->
  validNow now ->
  (DisabledAt r = zeroTime /\ DisabledUntil r = zeroTime)
  \/ (DisabledAt r <= now
      /\ DisabledUntil r
         = Add (DisabledAt r) (seconds (DisableDurationSeconds cfg))) ->
  exists r',
    records (TrackFailure t vendor model now).1 !! key vendor model = Some r'
    /\ DisabledAt r <= DisabledAt r'
    /\ DisabledUntil r <= DisabledUntil r'.
Proof.
  intros cfg Hr Hvalid Hshape.
  exists (failureStep cfg now true r). split.
  - rewrite TrackFailure_records, lookup_insert_eq. cbn zeta. now rewrite Hr.
  - unfold failureStep.
    destruct (shouldDisable cfg now (countFailure true now r)); cbn; [|lia].
    pose proof (valid_pos _ Hvalid) as Hpos.
    pose proof (Add_valid_pos now _ Hvalid
                  (seconds_range (DisableDurationSeconds cfg))) as Hun.
    destruct Hshape as [[-> ->]|[Hle ->]]; unfold zeroTime, Add in *; lia.
Qed.

Lemma failure_never_shortens_witness :
  exists r',
    records (TrackFailure disabledTracker "openai" "gpt-4" (T0 + Second)).1
      !! key "openai" "gpt-4" = Some r'
    /\ T0 + 300 * Second <= DisabledUntil r'.
Proof.
  assert (Hr : exists r, records disabledTracker !! key "openai" "gpt-4" = Some r
                         /\ DisabledAt r = T0
                         /\ DisabledUntil r = T0 + 300 * Second)
    by (eexists; repeat split; vm_compute; reflexivity).
  destruct Hr as (r & Hr & Hat & Hun).
  destruct (failure_never_shortens disabledTracker "openai" "gpt-4"
              (T0 + Second) r Hr) as (r' & Hr' & _ & Hle).
  - vm_compute. discriminate.
  - right. rewrite Hat, Hun. split; vm_compute; [discriminate|reflexivity].
  - exists r'. split; [exact Hr'|]. now rewrite <- Hun.
Defined.

End TrackerMore.

(** ** The mock tracker *)

Module MockProps.
Import GoTime config failure TimeFacts TrackerFacts Tracker TrackerMore.

(** X12.  The mock counts failures and never disables: without an injected
    error [TrackFailure] adds one to the count of the pair and returns no
    error; with an injected error it returns that error and leaves the
    mock as it is; in both cases no answer of [IsDisabled] changes. *)
Theorem mock_TrackFailure_spec (m : MockFailureTracker) vendor model now :
  (failOnError m = None ->
   (Mock.TrackFailure m vendor model now).2 = noError
   /\ Mock.GetFailureCount (Mock.TrackFailure m vendor model now).1 vendor model
      = (wrap32 ((Mock.GetFailureCount m vendor model).1 + 1), noError))
  /\ (forall e, failOnError m = Some e ->
                Mock.TrackFailure m vendor model now = (m, Some e))
  /\ (forall vendor' model' now',
        Mock.IsDisabled (Mock.TrackFailure m vendor model now).1 vendor' model' now'
        = Mock.IsDisabled m vendor' model' now').
Proof.
  unfold Mock.TrackFailure, Mock.GetFailureCount, Mock.IsDisabled.
  destruct (failOnError m) as [e|]; cbn.
  - split; [discriminate|]. split; [|reflexivity]. now intros e' [= <-].
  - split; [|split; [discriminate|reflexivity]].
    intros _. now rewrite lookup_insert_eq.
Qed.

Lemma mock_TrackFailure_spec_witness :
  Mock.GetFailureCount
    (Mock.TrackFailure NewMockFailureTracker "vendor" "model" T0).1
    "vendor" "model" = (1, noError).
Proof.
  destruct (mock_TrackFailure_spec NewMockFailureTracker "vendor" "model" T0)
    as (H & _).
  destruct H as [_ H]; [reflexivity|]. rewrite H. reflexivity.
Defined.

(** X13.  In the mock a success re-enables: after [TrackSuccess], and
    after [EnableModel], the pair is not disabled and its count is 0,
    whatever its state before, and the pairs under other keys keep their
    state and count. *)
Theorem mock_clear_spec (m : MockFailureTracker) vendor model now :
  let cleared (m' : MockFailureTracker) :=
    Mock.IsDisabled m' vendor model now = (false, noError)
    /\ Mock.GetFailureCount m' vendor model = (0, noError)
    /\ forall vendor' model',
         key vendor' model' <> key vendor model ->
         Mock.IsDisabled m' vendor' model' now = Mock.IsDisabled m vendor' model' now
         /\ Mock.GetFailureCount m' vendor' model'
            = Mock.GetFailureCount m vendor' model' in
  cleared (Mock.TrackSuccess m vendor model).1
  /\ cleared (Mock.EnableModel m vendor model).1.
Proof.
  cbn zeta.
  unfold Mock.TrackSuccess, Mock.EnableModel, Mock.IsDisabled, Mock.GetFailureCount.
  cbn. rewrite !lookup_delete_eq, lookup_insert_eq. cbn.
  repeat split; intros;
    rewrite ?lookup_delete_ne, ?lookup_insert_ne by congruence; reflexivity.
Qed.

Lemma mock_clear_spec_witness :
  let m := Mock.SetDisabled
             (Mock.SetDisabled NewMockFailureTracker "vendor" "model" true)
             "other" "model" true in
  Mock.IsDisabled (Mock.TrackSuccess m "vendor" "model").1 "vendor" "model" T0
  = (false, noError)
  /\ Mock.IsDisabled (Mock.TrackSuccess m "vendor" "model").1 "other" "model" T0
     = (true, noError).
Proof.
  cbn zeta.
  destruct (mock_clear_spec
              (Mock.SetDisabled
                 (Mock.SetDisabled NewMockFailureTracker "vendor" "model" true)
                 "other" "model" true) "vendor" "model" T0)
    as [(Hdis & _ & Hother) _].
  split; [exact Hdis|].
  destruct (Hother "other"%string "model"%string) as [-> _].
  - vm_compute. discriminate.
  - vm_compute. reflexivity.
Defined.

(** X14.  The list of the mock agrees with its [IsDisabled]: a disabled
    pair whose vendor has no colon is listed as that pair, and, when every
    key of the mock has a colon (as every key made by [key] has), each
    listed pair is disabled. *)
Theorem mock_list_exact (m : MockFailureTracker) now untilNow :
  (forall vendor model,
     colonFree vendor = true ->
     Mock.IsDisabled m vendor model now = (true, noError) ->
     exists d,
       d ∈ Mock.GetDisabledModels m now untilNow
       /\ DM_Vendor d = vendor /\ DM_Model d = model)
  /\ ((forall k b, disabled m !! k = Some b -> colonFree k = false) ->
      forall d,
        d ∈ Mock.GetDisabledModels m now untilNow ->
        Mock.IsDisabled m (DM_Vendor d) (DM_Model d) now = (true, noError)).
Proof.
  unfold Mock.GetDisabledModels, Mock.IsDisabled. split.
  - intros vendor model Hfree Hdis.
    destruct (disabled m !! key vendor model) as [[|]|] eqn:Hk;
      try discriminate.
    eexists. split.
    + apply list_elem_of_omap. exists (key vendor model, true).
      split; [now apply elem_of_map_to_list|]. reflexivity.
    + cbn. now rewrite (splitKey_key vendor model Hfree).
  - intros Hcolon d ([k b] & Hin & Hd)%list_elem_of_omap.
    apply elem_of_map_to_list in Hin. cbn in Hd.
    destruct b; [|discriminate]. injection Hd as <-. cbn.
    destruct (splitKey_colon k (Hcolon _ _ Hin)) as [-> _].
    now rewrite Hin.
Qed.

Lemma mock_list_exact_witness :
  exists d,
    d ∈ Mock.GetDisabledModels
          (Mock.SetDisabled NewMockFailureTracker "vendor" "model" true)
          T0 (fun _ => T0)
    /\ DM_Vendor d = "vendor"%string /\ DM_Model d = "model"%string.
Proof.
  apply (mock_list_exact
           (Mock.SetDisabled NewMockFailureTracker "vendor" "model" true)
           T0 (fun _ => T0)).
  - reflexivity.
  - vm_compute. reflexivity.
Defined.

End MockProps.

(** ** The adapters over any tracker *)

Module Adapters.
Import GoTime config failure.

Section AnyTracker.
Context {T : Type} `{FailureTracker T}.

(** X15.  Over any implementation of the tracker, [IsEnabled] answers true
    exactly when the explicit flag is not false and either there is no
    tracker or the tracker answers "not disabled" without an error; and
    whenever it returns an error its answer is false. *)
Theorem IsEnabled_true_iff (ri : RoutingIntegration T) vendor model
    (explicitlyEnabled : option bool) now :
  ((IsEnabled ri vendor model explicitlyEnabled now).1 = true <->
   explicitlyEnabled <> Some false
   /\ (tracker ri = None
       \/ exists tr, tracker ri = Some tr
                     /\ iIsDisabled tr vendor model now = (false, noError)))
  /\ ((IsEnabled ri vendor model explicitlyEnabled now).2 <> noError ->
      (IsEnabled ri vendor model explicitlyEnabled now).1 = false).
Proof.
  assert (Hoff : explicitlyEnabled = Some false ->
                 IsEnabled ri vendor model explicitlyEnabled now = (false, noError))
    by (intros ->; reflexivity).
  assert (Hon : explicitlyEnabled <> Some false ->
                IsEnabled ri vendor model explicitlyEnabled now
                = let '(disabled, err) := IsModelDisabled ri vendor model now in
                  match err with
                  | Some _ => (false, err)
                  | None => (negb disabled, noError)
                  end).
  { intros Hflag. unfold IsEnabled.
    destruct explicitlyEnabled as [[|]|]; try reflexivity. congruence. }
  destruct (decide (explicitlyEnabled = Some false)) as [Hflag|Hflag].
  - rewrite (Hoff Hflag). cbn. split; [|reflexivity].
    split; [discriminate|]. intros [Hn _]. congruence.
  - rewrite (Hon Hflag). unfold IsModelDisabled, noError.
    destruct (tracker ri) as [tr|]; cbn.
    + destruct (iIsDisabled tr vendor model now) as [d [e|]] eqn:Heq; cbn.
      * split; [|reflexivity]. split; [discriminate|].
        intros [_ [Hn|(tr' & Htr & Heq')]]; [discriminate|].
        injection Htr as <-. congruence.
      * split; [|congruence]. destruct d; cbn.
        -- split; [discriminate|].
           intros [_ [Hn|(tr' & Htr & Heq')]]; [discriminate|].
           injection Htr as <-. congruence.
        -- split; [|reflexivity]. intros _. split; [exact Hflag|].
           right. exists tr. auto.
    + split; [|congruence]. split; [|reflexivity].
      intros _. split; [exact Hflag|now left].
Qed.

(** X16.  Over any implementation of the tracker, [OnRequestStart] reports
    a pair disabled exactly when there is a tracker and it answers
    "disabled" without an error; without a tracker every method of the
    integration returns its zero value and no error and leaves the
    integration as it is. *)
Theorem OnRequestStart_true_iff (i : integration.Integration T) vendor model now :
  ((integration.OnRequestStart i vendor model now).1 = true <->
   exists tr, integration.tracker i = Some tr
              /\ iIsDisabled tr vendor model now = (true, noError))
  /\ (integration.tracker i = None ->
      integration.OnRequestStart i vendor model now = (false, noError)
      /\ integration.OnRequestSuccess i vendor model = (i, noError)
      /\ integration.OnRequestFailure i vendor model now = (i, noError)
      /\ integration.IsModelDisabled i vendor model now = (false, noError)
      /\ (forall untilNow, integration.GetAllDisabledModels i now untilNow = [])
      /\ integration.EnableModel i vendor model = (i, noError)
      /\ integration.GetFailureCount i vendor model = (0, noError)).
Proof.
  split.
  - unfold integration.OnRequestStart, noError.
    destruct (integration.tracker i) as [tr|]; cbn.
    + destruct (iIsDisabled tr vendor model now) as [d [e|]] eqn:Heq; cbn.
      * split; [discriminate|].
        intros (tr' & Htr & Heq'). injection Htr as <-. congruence.
      * destruct d.
        -- split; [|reflexivity]. intros _. exists tr. auto.
        -- split; [discriminate|].
           intros (tr' & Htr & Heq'). injection Htr as <-. congruence.
    + split; [discriminate|]. intros (tr & Htr & _). discriminate.
  - intros Hnil.
    unfold integration.OnRequestStart, integration.OnRequestSuccess,
      integration.OnRequestFailure, integration.IsModelDisabled,
      integration.GetAllDisabledModels, integration.EnableModel,
      integration.GetFailureCount.
    rewrite Hnil. repeat split.
Qed.

End AnyTracker.

Lemma IsEnabled_true_iff_witness :
  (IsEnabled (NewRoutingIntegration (Some (newTracker None))) "openai" "gpt-4"
     None T0).1 = true
  /\ (IsEnabled (NewRoutingIntegration (Some Broken)) "openai" "gpt-4"
        None T0).1 = false.
Proof.
  split.
  - apply (IsEnabled_true_iff
             (NewRoutingIntegration (Some (newTracker None))) "openai" "gpt-4"
             None T0).
    split; [discriminate|]. right. exists (newTracker None).
    split; reflexivity.
  - apply (IsEnabled_true_iff (NewRoutingIntegration (Some Broken))
             "openai" "gpt-4" None T0).
    discriminate.
Defined.

Lemma OnRequestStart_true_iff_witness :
  (integration.OnRequestStart (integration.NewIntegration (Some disabledTracker))
     "openai" "gpt-4" T0).1 = true
  /\ integration.OnRequestStart
       (integration.NewIntegration (@None failureTracker)) "openai" "gpt-4" T0
     = (false, noError).
Proof.
  split.
  - apply (OnRequestStart_true_iff
             (integration.NewIntegration (Some disabledTracker))
             "openai" "gpt-4" T0).
    exists disabledTracker. split; [reflexivity|vm_compute; reflexivity].
  - apply (OnRequestStart_true_iff
             (integration.NewIntegration (@None failureTracker))
             "openai" "gpt-4" T0).
    reflexivity.
Defined.

End Adapters.

(** ** The management handlers of the tracker *)

Module Handlers.
Import GoTime config failure TimeFacts TrackerFacts Tracker TrackerMore management.

(** *** Parsing the model id *)

Lemma cutColon_None s : cutColon s = None <-> colonFree s = true.
Proof.
  induction s as [|c rest IH]; cbn [cutColon colonFree]; [easy|].
  destruct (Ascii.eqb c ":"); cbn [negb andb]; [easy|].
  destruct (cutColon rest) as [[a b]|]; [|tauto].
  split; [discriminate|]. intros Hfree. apply IH in Hfree. discriminate.
Qed.

Lemma cutColon_Some s a b : cutColon s = Some (a, b) -> key a b = s.
Proof.
  unfold key. revert a. induction s as [|c rest IH]; intros a;
    cbn [cutColon]; [discriminate|].
  destruct (Ascii.eqb c ":") eqn:Hc.
  - intros [= <- <-]. apply Ascii.eqb_eq in Hc. now subst c.
  - destruct (cutColon rest) as [[a' b']|]; [|discriminate].
    intros [= <- <-].
    change (String c a' +:+ ":" +:+ b') with (String c (a' +:+ ":" +:+ b')).
    now rewrite (IH a' eq_refl).
Qed.

Lemma cutColon_free s a b : cutColon s = Some (a, b) -> colonFree a = true.
Proof.
  revert a. induction s as [|c rest IH]; intros a; cbn [cutColon]; [discriminate|].
  destruct (Ascii.eqb c ":") eqn:Hc.
  - now intros [= <- <-].
  - destruct (cutColon rest) as [[a' b']|]; [|discriminate].
    intros [= <- <-]. cbn [colonFree]. now rewrite Hc, (IH a' eq_refl).
Qed.

Lemma cutColon_key vendor model :
  exists a b, cutColon (key vendor model) = Some (a, b)
              /\ key a b = key vendor model
              /\ (colonFree vendor = true -> a = vendor /\ b = model).
Proof.
  destruct (cutColon (key vendor model)) as [[a b]|] eqn:Hcut.
  - exists a, b. split; [reflexivity|].
    pose proof (cutColon_Some _ _ _ Hcut) as Hkey. split; [exact Hkey|].
    intros Hfree.
    pose proof (cutColon_free _ _ _ Hcut) as Ha.
    now apply (key_inj a b vendor model).
  - apply cutColon_None in Hcut. now rewrite key_has_colon in Hcut.
Qed.

(** The operations of the tracker see the pair through its key only. *)
Lemma same_key_same_pair t a b vendor model now :
  key a b = key vendor model ->
  failure.EnableModel t a b = failure.EnableModel t vendor model
  /\ IsDisabled t a b now = IsDisabled t vendor model now
  /\ GetFailureCount t a b = GetFailureCount t vendor model.
Proof.
  intros Hkey. unfold failure.EnableModel, IsDisabled, GetFailureCount.
  now rewrite Hkey.
Qed.

Lemma EnableModel_result t vendor model :
  failure.EnableModel t vendor model
  = ((failure.EnableModel t vendor model).1, noError).
Proof.
  unfold failure.EnableModel.
  destruct (records t !! key vendor model); reflexivity.
Qed.

Ltac body_lookup :=
  unfold H; cbn [list_to_map foldr fst snd];
  repeat first [rewrite lookup_insert_eq | rewrite lookup_insert_ne by discriminate];
  reflexivity.

Section AnyTracker.
Context {T : Type} `{FailureTracker T}.

(** X17.  Over any implementation of the tracker, the two handlers that
    take a model id answer 400 exactly for the ids without a colon (the
    empty id among them), and [EnableModel] then leaves the handler as it
    is. *)
Theorem modelID_rejected (h : Handler T) modelID now :
  (status (EnableModel h modelID).2 = StatusBadRequest <-> colonFree modelID = true)
  /\ (status (GetModelStatus h modelID now) = StatusBadRequest
      <-> colonFree modelID = true)
  /\ (colonFree modelID = true -> (EnableModel h modelID).1 = h).
Proof.
  unfold EnableModel, GetModelStatus, SplitN_colon_2.
  destruct (String.eqb_spec modelID "") as [->|Hne]; cbn.
  - repeat split.
  - destruct (cutColon modelID) as [[a b]|] eqn:Hcut.
    + assert (Hfree : colonFree modelID = false).
      { destruct (colonFree modelID) eqn:Hf; [|reflexivity].
        apply cutColon_None in Hf. congruence. }
      rewrite Hfree.
      destruct (failureIntegration h) as [fi|]; cbn.
      * destruct (integration.EnableModel fi a b) as [fi' [msg|]];
          destruct (integration.IsModelDisabled fi a b now) as [d e];
          destruct (integration.GetFailureCount fi a b) as [n e'];
          cbn; repeat split; discriminate.
      * repeat split; discriminate.
    + apply cutColon_None in Hcut. rewrite Hcut. cbn. repeat split.
Qed.

End AnyTracker.

Lemma modelID_rejected_witness :
  status (GetModelStatus (mkHandler (Some (integration.NewIntegration
                                             (Some disabledTracker))))
            "gpt-4" T0) = StatusBadRequest.
Proof.
  apply (modelID_rejected
           (mkHandler (Some (integration.NewIntegration (Some disabledTracker))))
           "gpt-4" T0).
  reflexivity.
Defined.

(** X18.  Addressed by the id [vendor:model], the status handler over the
    failure tracker answers 200 with the disabled state and the failure
    count of that pair, also when the vendor has a colon; the vendor and
    model it echoes are the two parts of the id at its first colon. *)
Theorem GetModelStatus_spec (t : failureTracker) vendor model now :
  let h := mkHandler (Some (integration.NewIntegration (Some t))) in
  let resp := GetModelStatus h (key vendor model) now in
  status resp = StatusOK
  /\ body resp !! "disabled"%string
     = Some (JBool (IsDisabled t vendor model now).1)
  /\ body resp !! "failureCount"%string
     = Some (JNumber (GetFailureCount t vendor model).1)
  /\ body resp !! "vendor"%string = Some (JString (splitKey (key vendor model)).1)
  /\ body resp !! "model"%string = Some (JString (splitKey (key vendor model)).2).
Proof.
  cbn zeta. unfold GetModelStatus, SplitN_colon_2.
  destruct (String.eqb_spec (key vendor model) "") as [Hempty|_].
  { pose proof (key_has_colon vendor model) as Hc. now rewrite Hempty in Hc. }
  destruct (cutColon_key vendor model) as (a & b & Hcut & Hkey & _).
  rewrite Hcut. cbn.
  destruct (same_key_same_pair t a b vendor model now Hkey) as (_ & -> & ->).
  assert (Hsplit : splitKey (key vendor model) = (a, b)).
  { rewrite <- Hkey. apply splitKey_key. exact (cutColon_free _ _ _ Hcut). }
  rewrite Hsplit.
  destruct (IsDisabled t vendor model now) as [d e].
  destruct (GetFailureCount t vendor model) as [n e'].
  cbn. repeat split; body_lookup.
Qed.

(** X19.  Addressed by the id [vendor:model], the enable handler over the
    failure tracker answers 200 "success" and leaves the tracker that
    [EnableModel vendor model] leaves, also when the vendor has a colon;
    without an integration it answers 200 "noop" and changes nothing. *)
Theorem EnableModel_handler_spec (t : failureTracker) vendor model :
  let h := mkHandler (Some (integration.NewIntegration (Some t))) in
  let t' := (failure.EnableModel t vendor model).1 in
  (exists resp,
     EnableModel h (key vendor model)
     = (mkHandler (Some (integration.NewIntegration (Some t'))), resp)
     /\ status resp = StatusOK
     /\ body resp !! "status"%string = Some (JString "success"))
  /\ (exists resp,
        EnableModel (mkHandler (@None (integration.Integration failureTracker)))
          (key vendor model)
        = (mkHandler None, resp)
        /\ status resp = StatusOK
        /\ body resp !! "status"%string = Some (JString "noop")).
Proof.
  cbn zeta. unfold EnableModel, SplitN_colon_2.
  destruct (String.eqb_spec (key vendor model) "") as [Hempty|_].
  { pose proof (key_has_colon vendor model) as Hc. now rewrite Hempty in Hc. }
  destruct (cutColon_key vendor model) as (a & b & Hcut & Hkey & _).
  rewrite Hcut. cbn.
  destruct (same_key_same_pair t a b vendor model 0 Hkey) as (-> & _ & _).
  rewrite EnableModel_result. cbn.
  split; eexists; (split; [reflexivity|]); cbn; split; [reflexivity|body_lookup
                                                        |reflexivity|body_lookup].
Qed.

(** *** Enabling all disabled models *)

(** The tracker after [EnableModel] for each entry of a list. *)
Lemma fold_enableOne (l : list DisabledModel) :
  forall (t : failureTracker) (count : Z),
    foldl enableOne (integration.NewIntegration (Some t), count) l
    = (integration.NewIntegration
         (Some (foldl (fun t d => (failure.EnableModel t (DM_Vendor d) (DM_Model d)).1)
                  t l)),
       count + Z.of_nat (length l)).
Proof.
  induction l as [|d l IH]; intros t count; cbn [foldl length].
  - now rewrite Z.add_0_r.
  - unfold enableOne at 2. unfold integration.EnableModel. cbn.
    rewrite EnableModel_result. cbn.
    change {| integration.tracker :=
               Some (failure.EnableModel t (DM_Vendor d) (DM_Model d)).1 |}
      with (integration.NewIntegration
              (Some (failure.EnableModel t (DM_Vendor d) (DM_Model d)).1)).
    rewrite IH. f_equal. lia.
Qed.

Lemma EnableModel_lookup t v m k :
  records (failure.EnableModel t v m).1 !! k
  = if decide (k = key v m) then clearRecord <$> records t !! k
    else records t !! k.
Proof.
  rewrite EnableModel_records. destruct (decide (k = key v m)) as [->|Hne].
  - destruct (records t !! key v m) as [r|] eqn:Hr.
    + now rewrite lookup_insert_eq.
    + now rewrite Hr.
  - destruct (records t !! key v m); [|reflexivity].
    now rewrite lookup_insert_ne by congruence.
Qed.

Lemma enableEach_lookup (l : list DisabledModel) :
  forall t k,
    records (foldl (fun t d => (failure.EnableModel t (DM_Vendor d) (DM_Model d)).1)
               t l) !! k
    = if decide (k ∈ (fun d => key (DM_Vendor d) (DM_Model d)) <$> l)
      then clearRecord <$> records t !! k
      else records t !! k.
Proof.
  induction l as [|d l IH]; intros t k; cbn [foldl fmap list_fmap].
  - destruct (decide (k ∈ [])) as [Hin|_]; [|reflexivity].
    now apply not_elem_of_nil in Hin.
  - rewrite IH, EnableModel_lookup.
    destruct (decide (k ∈ (fun d => key (DM_Vendor d) (DM_Model d)) <$> l))
      as [Hin|Hnin];
      destruct (decide (k = key (DM_Vendor d) (DM_Model d))) as [Hk|Hk];
      destruct (decide (k ∈ key (DM_Vendor d) (DM_Model d)
                          :: ((fun d => key (DM_Vendor d) (DM_Model d)) <$> l)))
        as [Hin'|Hnin'];
      try reflexivity;
      try (exfalso; apply Hnin'; rewrite elem_of_cons; auto; fail);
      try (exfalso; apply elem_of_cons in Hin' as [?|?]; auto; fail).
    destruct (records t !! k); reflexivity.
Qed.

(** X20.  Over the failure tracker, whose records sit under their own
    keys, [EnableAllModels] answers 200 with [enabledCount] and
    [totalModels] both the length of the list of disabled models, and
    leaves a tracker in which no pair is disabled at that time and the list
    is empty; the records that were not disabled are untouched. *)
Theorem EnableAllModels_spec (t : failureTracker) now untilNow :
  keyed t ->
  let h := mkHandler (Some (integration.NewIntegration (Some t))) in
  let n := Z.of_nat (length (GetDisabledModels t now untilNow)) in
  exists t' resp,
    EnableAllModels h now untilNow
    = (mkHandler (Some (integration.NewIntegration (Some t'))), resp)
    /\ status resp = StatusOK
    /\ body resp !! "enabledCount"%string = Some (JNumber n)
    /\ body resp !! "totalModels"%string = Some (JNumber n)
    /\ (forall vendor model, IsDisabled t' vendor model now = (false, noError))
    /\ (forall untilNow', GetDisabledModels t' now untilNow' = [])
    /\ (forall k r, records t !! k = Some r -> disabledNow now r = false ->
                    records t' !! k = Some r).
Proof.
  intros Hkeyed. cbn zeta. unfold EnableAllModels. cbn.
  set (l := GetDisabledModels t now untilNow).
  rewrite (fold_enableOne l t 0).
  set (t' := foldl (fun t d => (failure.EnableModel t (DM_Vendor d) (DM_Model d)).1)
               t l).
  assert (Hclear : forall k r', records t' !! k = Some r' ->
                                disabledNow now r' = false).
  { intros k r'. unfold t'. rewrite enableEach_lookup.
    destruct (decide (k ∈ (fun d => key (DM_Vendor d) (DM_Model d)) <$> l))
      as [Hin|Hnin].
    - destruct (records t !! k) as [r|]; cbn; [|discriminate].
      now intros [= <-].
    - intros Hr'. destruct (disabledNow now r') eqn:Hdis; [|reflexivity].
      exfalso. apply Hnin. apply list_elem_of_fmap.
      eexists. split; [|apply GetDisabledModels_elem; exists k, r'; eauto].
      cbn. symmetry. exact (Hkeyed _ _ Hr'). }
  exists t'. eexists. split; [reflexivity|]. cbn.
  split; [reflexivity|]. split; [body_lookup|]. split; [body_lookup|].
  split; [|split].
  - intros vendor model. unfold IsDisabled.
    destruct (records t' !! key vendor model) as [r'|] eqn:Hr'; [|reflexivity].
    now rewrite (Hclear _ _ Hr').
  - intros untilNow'. apply elem_of_nil_inv. intros d Hd.
    apply GetDisabledModels_elem in Hd as (k & r' & Hr' & Hdis & _).
    rewrite (Hclear _ _ Hr') in Hdis. discriminate.
  - intros k r Hr Hdis. unfold t'. rewrite enableEach_lookup.
    destruct (decide (k ∈ (fun d => key (DM_Vendor d) (DM_Model d)) <$> l))
      as [Hin|_]; [|exact Hr].
    exfalso. apply list_elem_of_fmap in Hin as (d & -> & Hd).
    apply GetDisabledModels_elem in Hd as (k' & r' & Hr' & Hdis' & ->).
    cbn in Hr. rewrite (Hkeyed _ _ Hr') in Hr. congruence.
Qed.

Lemma EnableAllModels_spec_witness :
  exists t' resp,
    EnableAllModels (mkHandler (Some (integration.NewIntegration
                                        (Some disabledTracker))))
      T0 (fun _ => T0)
    = (mkHandler (Some (integration.NewIntegration (Some t'))), resp)
    /\ body resp !! "enabledCount"%string = Some (JNumber 1)
    /\ IsDisabled t' "openai" "gpt-4" T0 = (false, noError).
Proof.
  destruct (EnableAllModels_spec disabledTracker T0 (fun _ => T0))
    as (t' & resp & Heq & _ & Hn & _ & Hdis & _).
  - exact (reachable_keyed None _ disabledTracker_reachable).
  - exists t', resp. split; [exact Heq|]. split; [|apply Hdis].
    rewrite Hn. vm_compute. reflexivity.
Defined.

End Handlers.

(** ** Vendor names, continued *)

Module VendorNamesMore.
Import executor.

Lemma alias_entry provider alias :
  ProviderAliases !! provider = Some alias ->
  (provider = "openai-compat"%string /\ alias = "openai-compatibility"%string)
  \/ (provider <> "openai-compat"%string /\ alias = provider).
Proof.
  unfold ProviderAliases. cbn [list_to_map foldr fst snd].
  rewrite lookup_insert_Some. intros [[<- <-]|[Hne H]]; [now left|].
  right. split; [congruence|]. revert H.
  repeat (rewrite lookup_insert_Some; intros [[<- <-]|[_ H]];
          [reflexivity|revert H]).
  rewrite lookup_empty. discriminate.
Qed.

Lemma GetVendorName_cases provider :
  (provider = "openai-compat"%string
   /\ GetVendorName provider = "openai-compatibility"%string)
  \/ (provider <> "openai-compat"%string /\ GetVendorName provider = provider).
Proof.
  unfold GetVendorName.
  destruct (ProviderAliases !! provider) as [alias|] eqn:Halias.
  - destruct (alias_entry _ _ Halias) as [[-> ->]|[Hne ->]]; auto.
  - right. split; [|reflexivity]. intros ->. vm_compute in Halias. discriminate.
Qed.

(** X21.  [GetVendorName] renames the provider "openai-compat" and no
    other; it never returns "openai-compat"; and two providers get the same
    vendor name exactly when they are equal or are the two names
    "openai-compat" and "openai-compatibility" of the one vendor. *)
Theorem GetVendorName_renames provider :
  (GetVendorName provider <> provider <-> provider = "openai-compat"%string)
  /\ GetVendorName provider <> "openai-compat"%string
  /\ (forall other,
        GetVendorName provider = GetVendorName other <->
        provider = other
        \/ (provider ∈ ["openai-compat"; "openai-compatibility"]%string
            /\ other ∈ ["openai-compat"; "openai-compatibility"]%string)).
Proof.
  split; [|split].
  - destruct (GetVendorName_cases provider) as [[-> ->]|[Hne ->]].
    + split; [reflexivity|discriminate].
    + split; [congruence|]. intros ->. congruence.
  - destruct (GetVendorName_cases provider) as [[-> ->]|[Hne ->]];
      [discriminate|exact Hne].
  - intros other. rewrite !elem_of_cons, !elem_of_nil.
    destruct (GetVendorName_cases provider) as [[-> ->]|[Hne ->]];
      destruct (GetVendorName_cases other) as [[-> ->]|[Hne' ->]].
    + split; auto.
    + split.
      * intros <-. right. auto.
      * intros [<-|[_ [->|[->|[]]]]]; congruence.
    + split.
      * intros ->. right. auto.
      * intros [->|[[->|[->|[]]] _]]; congruence.
    + split; [auto|]. intros [->|[[->|[->|[]]] [->|[->|[]]]]]; congruence.
Qed.

End VendorNamesMore.

(** ** Joining the conditions of a query *)

Module Query.
Import postgres.

Lemma append_assoc (a b c : string) : (a +:+ b) +:+ c = a +:+ (b +:+ c).
Proof.
  induction a as [|x a IH]; [reflexivity|].
  change (String x a +:+ b) with (String x (a +:+ b)).
  change (String x (a +:+ b) +:+ c) with (String x ((a +:+ b) +:+ c)).
  change (String x a +:+ (b +:+ c)) with (String x (a +:+ (b +:+ c))).
  now rewrite IH.
Qed.

Lemma append_empty_r (a : string) : a +:+ "" = a.
Proof.
  induction a as [|x a IH]; [reflexivity|].
  change (String x a +:+ "") with (String x (a +:+ "")). now rewrite IH.
Qed.

Lemma joinConditions_loop_S i acc c rest :
  joinConditions_loop (S i) acc (c :: rest)
  = joinConditions_loop (S (S i)) ((acc +:+ " AND ") +:+ c) rest.
Proof. reflexivity. Qed.

Lemma joinConditions_loop_concat rest :
  forall i acc c,
    joinConditions_loop (S i) (acc +:+ c) rest
    = acc +:+ String.concat " AND " (c :: rest).
Proof.
  induction rest as [|c' rest IH]; intros i acc c.
  - reflexivity.
  - rewrite joinConditions_loop_S.
    rewrite (IH (S i) ((acc +:+ c) +:+ " AND ") c').
    change (String.concat " AND " (c :: c' :: rest))
      with (c +:+ " AND " +:+ String.concat " AND " (c' :: rest)).
    now rewrite !append_assoc.
Qed.

(** X22.  [joinConditions] is the join of the conditions with the
    separator " AND ": nothing for no condition, the condition itself for
    one, and no separator before the first or after the last. *)
Theorem joinConditions_concat (conditions : list string) :
  joinConditions conditions = String.concat " AND " conditions.
Proof.
  destruct conditions as [|c rest]; [reflexivity|].
  exact (joinConditions_loop_concat rest 0 "" c).
Qed.

End Query.
